(** * CRIMAC-dataloader: the cruise data-access layer and patch cropping

    A shallow embedding of [cruise/base.py] (class [Cruise]) together with
    the properties of its constructor and of its accessors: the category
    catalogue, the school-box query and the two slice accessors.  Python
    integers are
    [Z], a pandas table is the list of its rows in table order, an
    xarray dataset is its coordinate labels, its axis sizes and an index
    function, and a Python exception is a value of [exn] carried by the
    [result] monad. *)

From Stdlib Require Import Ascii String ZArith List Bool Lia.
From Stdlib Require Import Sorting.Sorted Sorting.Permutation.
Import ListNotations.
Open Scope Z_scope.

Set Implicit Arguments.

(** ** Exceptions and the error monad *)

(** The exceptions the module can raise: [FileNotFoundError] is raised
    explicitly, [AttributeError] is what Python raises when an attribute
    of [None] is read, [KeyError] is what [Dataset.sel] raises for a label
    that is not in the coordinate, [InvalidIndexError] is what it raises
    for a list of labels on a coordinate that repeats a label. *)
Inductive exn : Type :=
| FileNotFoundError (msg : string)
| AttributeError (attr : string)
| KeyError (label : Z)
| InvalidIndexError.

Inductive result (A : Type) : Type :=
| Ok (a : A)
| Raise (e : exn).

Arguments Ok {A} a.
Arguments Raise {A} e.

Definition bind {A B : Type} (m : result A) (k : A -> result B) : result B :=
  match m with
  | Ok a => k a
  | Raise e => Raise e
  end.

Notation "x <- m ;; k" := (bind m (fun x => k))
  (at level 61, m at next level, right associativity).

Definition is_ok {A : Type} (m : result A) : bool :=
  match m with Ok _ => true | Raise _ => false end.

(** ** Arguments of type [(int, list, None)] *)

Inductive selector : Type :=
| SelNone
| SelInt (k : Z)
| SelList (l : list Z).

(** ** The school-box table *)

Record Row : Type := mkRow {
  startpingindex : Z;
  endpingindex : Z;
  upperdeptindex : Z;
  lowerdeptindex : Z;
  category : Z
}.

Definition DataFrame : Type := list Row.

(** [Series.isin(values)] *)
Definition isin (values : list Z) (x : Z) : bool :=
  existsb (Z.eqb x) values.

(** [df.loc[mask]] where [df] may be [None]: reading [.loc] of [None]
    raises; on a table the rows whose mask is true are kept, in order. *)
Definition loc (df : option DataFrame) (mask : Row -> bool)
  : result DataFrame :=
  match df with
  | None => Raise (AttributeError "loc")
  | Some rows => Ok (filter mask rows)
  end.

(** ** [sorted] on integers *)

Fixpoint insert_sorted (x : Z) (l : list Z) : list Z :=
  match l with
  | [] => [x]
  | y :: l' => if x <=? y then x :: y :: l' else y :: insert_sorted x l'
  end.

Fixpoint sorted (l : list Z) : list Z :=
  match l with
  | [] => []
  | x :: l' => insert_sorted x (sorted l')
  end.

(** ** Python slices and label selection *)

(** One bound of [slice(start, stop)] on an axis of length [n], as
    [slice.indices] resolves it: a negative bound counts from the end,
    every bound is clamped to [0, n]. *)
Definition slice_bound (n : Z) (dflt : Z) (x : option Z) : Z :=
  match x with
  | None => dflt
  | Some v => if v <? 0 then Z.max 0 (v + n) else Z.min v n
  end.

(** The positions [isel(axis=slice(start, stop))] keeps. *)
Definition slice_indices (start stop : option Z) (n : nat) : list nat :=
  let lo := slice_bound (Z.of_nat n) 0 start in
  let hi := slice_bound (Z.of_nat n) (Z.of_nat n) stop in
  seq (Z.to_nat lo) (Z.to_nat (hi - lo)).

(** The position of a label on a coordinate; [get_indexer] uses it only
    on a coordinate without repeated label, where it is the only
    position of the label. *)
Fixpoint index_of (x : Z) (l : list Z) : option nat :=
  match l with
  | [] => None
  | y :: l' => if x =? y then Some 0%nat
               else option_map S (index_of x l')
  end.

(** [Index.is_unique]: no label of the coordinate is repeated. *)
Fixpoint is_unique (l : list Z) : bool :=
  match l with
  | [] => true
  | x :: l' => negb (existsb (Z.eqb x) l') && is_unique l'
  end.

(** [Index.get_loc(label)]: every position that holds the label, in
    increasing order, counted from [start]. *)
Fixpoint positions_of (x : Z) (l : list Z) (start : nat) : list nat :=
  match l with
  | [] => []
  | y :: l' =>
      if x =? y then start :: positions_of x l' (S start)
      else positions_of x l' (S start)
  end.

(** What a single label selects: one position, and the labelled axis is
    dropped, or several, and the axis stays. *)
Inductive located : Type :=
| One (i : nat)
| Many (js : list nat).

(** [sel(coord=label)] for a single integer: [KeyError] when the label
    is absent, the only position when it occurs once, every matching
    position when it is repeated. *)
Definition sel_label (coord : list Z) (label : Z) : result located :=
  match positions_of label coord 0 with
  | [] => Raise (KeyError label)
  | [i] => Ok (One i)
  | js => Ok (Many js)
  end.

(** [Index.get_indexer(labels)] on a coordinate without repeated label:
    the position of each label, [KeyError] when one is absent. *)
Fixpoint get_indexer (coord : list Z) (labels : list Z)
  : result (list nat) :=
  match labels with
  | [] => Ok []
  | x :: rest =>
      match index_of x coord with
      | Some i => rest' <- get_indexer coord rest ;; Ok (i :: rest')
      | None => Raise (KeyError x)
      end
  end.

(** [sel(coord=labels)] for a list (or array) of labels: a coordinate
    that repeats a label cannot be indexed by a list and raises
    [InvalidIndexError], whatever the list. *)
Definition sel_labels (coord : list Z) (labels : list Z)
  : result (list nat) :=
  if is_unique coord then get_indexer coord labels
  else Raise InvalidIndexError.

(** ** Array allocation and slice assignment *)

(** [np.full((n0, n1, n2), fill)] *)
Definition full {A : Type} (n0 n1 n2 : nat) (fill : A)
  : list (list (list A)) :=
  repeat (repeat (repeat fill n2) n1) n0.

Fixpoint zip_with {A B C : Type} (f : A -> B -> C)
    (la : list A) (lb : list B) : list C :=
  match la, lb with
  | a :: la', b :: lb' => f a b :: zip_with f la' lb'
  | _, _ => []
  end.

(** [dst[off : off + len(src)] = src], where [put s d] stores [s] in the
    place that held [d]; places outside the slice keep their content. *)
Definition assign_slice {A B : Type} (put : B -> A -> A) (off : nat)
    (src : list B) (dst : list A) : list A :=
  firstn off dst ++ zip_with put src (skipn off dst)
    ++ skipn (off + length src) dst.

(** [out[:, off_p : off_p + n_p, off_r : off_r + n_r] = data] *)
Definition assign_block {A : Type} (off_p off_r : nat)
    (data out : list (list (list A))) : list (list (list A)) :=
  assign_slice
    (assign_slice (assign_slice (fun (v : A) (_ : A) => v) off_r) off_p)
    0 data out.

(** The part of the half-open interval [[start, stop)] that lies in
    [[0, n)]: both ends clamped to [0, n]. *)
Definition clamp (n x : Z) : Z := Z.max 0 (Z.min n x).

Section Cruise.

(** The type of the array elements (floating-point numbers in the
    program; the accessors only move them around). *)
Variable V : Type.

(** An [xr.Dataset] with one labelled axis ([frequency] or [category]),
    the axes [ping_time] and [range], and one data variable ([sv] or
    [annotation]). *)
Record Dataset : Type := mkDataset {
  coord : list Z;
  sizes_ping_time : nat;
  sizes_range : nat;
  values : nat -> nat -> nat -> V
}.

(** What [.sv] and [.annotation] return: selecting the labelled axis
    with a single integer drops that axis. *)
Inductive DataArray : Type :=
| DA2 (a : list (list V))
| DA3 (a : list (list (list V))).

Record Cruise : Type := mkCruise {
  name : string;
  _data : Dataset;
  _annotations : option Dataset;
  _bottom : option Dataset;
  _school_box_df : option DataFrame
}.

Definition frequencies (self : Cruise) : list Z := coord (_data self).

Definition num_pings (self : Cruise) : Z :=
  Z.of_nat (sizes_ping_time (_data self)).

Definition num_ranges (self : Cruise) : Z :=
  Z.of_nat (sizes_range (_data self)).

Definition is_some {A : Type} (o : option A) : bool :=
  match o with Some _ => true | None => false end.

Definition annotations_available (self : Cruise) : bool :=
  is_some (_annotations self).

Definition bottom_available (self : Cruise) : bool :=
  is_some (_bottom self).

Definition school_boxes_available (self : Cruise) : bool :=
  is_some (_school_box_df self).

Definition categories (self : Cruise) : result (list Z) :=
  match _annotations self with
  | None =>
      Raise (FileNotFoundError
               ("Annotations are not available for cruise " ++ name self))
  | Some a =>
      Ok (sorted (filter (fun cat => negb (cat =? -1)) (coord a)))
  end.

(** The two tests on [categories] in [get_school_boxes]: [None] becomes
    [self.categories()], an [int] becomes a singleton list. *)
Definition selected_categories (self : Cruise) (cats : selector)
  : result (list Z) :=
  match cats with
  | SelNone => categories self
  | SelInt k => Ok [k]
  | SelList l => Ok l
  end.

(** [if bound is not None: df = df.loc[mask bound]] *)
Definition loc_if (bound : option Z) (mask : Z -> Row -> bool)
    (df : option DataFrame) : result (option DataFrame) :=
  match bound with
  | Some b => rows <- loc df (mask b) ;; Ok (Some rows)
  | None => Ok df
  end.

Definition get_school_boxes (self : Cruise)
    (start_ping end_ping start_range end_range : option Z)
    (cats : selector) : result DataFrame :=
  let df := _school_box_df self in
  df <- loc_if start_ping (fun b r => endpingindex r >=? b) df ;;
  df <- loc_if end_ping (fun b r => startpingindex r <? b) df ;;
  df <- loc_if start_range (fun b r => lowerdeptindex r >=? b) df ;;
  df <- loc_if end_range (fun b r => upperdeptindex r <? b) df ;;
  cl <- selected_categories self cats ;;
  loc df (fun r => isin cl (category r)).

(** *** The slice accessors *)

(** [isel(ping_time=..., range=...)] on the slab at position [i] of the
    labelled axis, materialised row by row. *)
Definition isel (d : Dataset) (pings ranges : list nat) (i : nat)
  : list (list V) :=
  map (fun p => map (fun r => values d i p r) ranges) pings.

(** The data variable of [d.sel(coord=labels)] at the ping positions
    [pings] and the range positions [ranges]: [labels] is a single
    integer (the labelled axis is dropped when the label occurs once)
    or a list. *)
Definition read_block (d : Dataset) (labels : Z + list Z)
    (pings ranges : list nat) : result DataArray :=
  match labels with
  | inl k =>
      found <- sel_label (coord d) k ;;
      match found with
      | One i => Ok (DA2 (isel d pings ranges i))
      | Many js => Ok (DA3 (map (isel d pings ranges) js))
      end
  | inr l =>
      js <- sel_labels (coord d) l ;;
      Ok (DA3 (map (isel d pings ranges) js))
  end.

(** [d.sel(coord=labels).isel(ping_time=slice(..), range=slice(..))]
    followed by the read of the data variable. *)
Definition sel_isel (d : Dataset) (labels : Z + list Z)
    (start_ping end_ping start_range end_range : option Z)
  : result DataArray :=
  read_block d labels
    (slice_indices start_ping end_ping (sizes_ping_time d))
    (slice_indices start_range end_range (sizes_range d)).

Definition or_default (x : option Z) (dflt : Z) : option Z :=
  match x with
  | None => Some dflt
  | Some v => Some v
  end.

Definition get_sv_slice (self : Cruise)
    (start_ping end_ping start_range end_range : option Z)
    (freqs : selector) : result DataArray :=
  let start_range := or_default start_range 0 in
  let end_range := or_default end_range (num_ranges self + 1) in
  let labels :=
    match freqs with
    | SelNone => inr (frequencies self)
    | SelInt k => inl k
    | SelList l => inr l
    end in
  sel_isel (_data self) labels start_ping end_ping start_range end_range.

Definition get_annotation_slice (self : Cruise)
    (start_ping end_ping start_range end_range : option Z)
    (cats : selector) : result DataArray :=
  let start_range := or_default start_range 0 in
  let end_range := or_default end_range (num_ranges self) in
  labels <- match cats with
            | SelNone => cl <- categories self ;; Ok (inr cl)
            | SelInt k => Ok (inl k)
            | SelList l => Ok (inr l)
            end ;;
  match _annotations self with
  | None => Raise (AttributeError "sel")
  | Some a => sel_isel a labels start_ping end_ping start_range end_range
  end.

(** *** Patch cropping *)

Definition as_3d (d : DataArray) : list (list (list V)) :=
  match d with
  | DA3 a => a
  | DA2 a => [a]
  end.

(** The frequency selection of a crop: none is every frequency of the
    survey, a single frequency is a singleton. *)
Definition selected_frequencies (survey : Cruise) (freqs : selector)
  : list Z :=
  match freqs with
  | SelNone => frequencies survey
  | SelInt f => [f]
  | SelList l => l
  end.

(** Modelled from the spec: [utils/cropping.py] ([crop_data]) is not
    among the sources; only its tests are.  The window has the patch
    size and starts at [center - size // 2] on each axis: for an even
    size it is the interval [[center - size // 2, center + size // 2)],
    and for every size it has as many cells as the output, so that a
    window inside the survey is read without boundary value.  Its
    intersection with the survey is read through [get_sv_slice]; the
    output is allocated with shape (frequencies, height, width), filled
    with [boundary_val], and the block that was read is copied to its
    offset in the window.  A single frequency is a singleton
    selection. *)
Definition crop_data (survey : Cruise) (center patch_size : Z * Z)
    (freqs : selector) (boundary_val : V)
  : result (list (list (list V))) :=
  let '(center_ping, center_range) := center in
  let '(height, width) := patch_size in
  let start_ping := center_ping - height / 2 in
  let end_ping := start_ping + height in
  let start_range := center_range - width / 2 in
  let end_range := start_range + width in
  let F := selected_frequencies survey freqs in
  let lo_ping := clamp (num_pings survey) start_ping in
  let hi_ping := clamp (num_pings survey) end_ping in
  let lo_range := clamp (num_ranges survey) start_range in
  let hi_range := clamp (num_ranges survey) end_range in
  data <- get_sv_slice survey (Some lo_ping) (Some hi_ping)
            (Some lo_range) (Some hi_range) (SelList F) ;;
  let out := full (length F) (Z.to_nat height) (Z.to_nat width)
               boundary_val in
  Ok (assign_block (Z.to_nat (lo_ping - start_ping))
        (Z.to_nat (lo_range - start_range)) (as_3d data) out).

End Cruise.

(** ** A small survey used to evaluate the accessors *)

Definition ex_rows : DataFrame :=
  [ mkRow 2 10 5 30 1;
    mkRow 12 15 40 60 27;
    mkRow 14 18 0 20 1;
    mkRow 30 40 10 50 1;
    mkRow 50 60 30 50 5 ].

(** Backscatter with 2 frequencies, 6 pings and 4 range bins; the value
    of a cell encodes its position. *)
Definition ex_data : Dataset Z :=
  mkDataset [18000; 38000] 6 4
    (fun f p r => Z.of_nat f * 100 + Z.of_nat p * 10 + Z.of_nat r).

Definition ex_annotations : Dataset Z :=
  mkDataset [27; -1; 1] 6 4 (fun _ _ _ => 0).

Definition ex_cruise : Cruise Z :=
  mkCruise "S2019847" ex_data (Some ex_annotations) None (Some ex_rows).

(** The same survey without annotations, and without school boxes. *)
Definition ex_cruise_no_annotations : Cruise Z :=
  mkCruise "S2019847" ex_data None None (Some ex_rows).



(** A backscatter store whose frequency axis repeats a label. *)
Definition ex_data_repeated : Dataset Z :=
  mkDataset [18000; 18000] 6 4
    (fun f p r => Z.of_nat f * 100 + Z.of_nat p * 10 + Z.of_nat r).

Definition ex_cruise_repeated : Cruise Z :=
  mkCruise "S2019847" ex_data_repeated (Some ex_annotations) None
    (Some ex_rows).



Definition ex_annotations_repeated : Dataset Z :=
  mkDataset [27; 1; -1; 1; -1] 6 4 (fun _ _ _ => 0).

Definition ex_cruise_repeated_categories : Cruise Z :=
  mkCruise "S2019847" ex_data (Some ex_annotations_repeated) None
    (Some ex_rows).

(** ** Predicates used to state the properties *)

(** A bound that is [None] filters nothing. *)
Definition bound_ok (bound : option Z) (test : Z -> bool) : bool :=
  match bound with
  | Some b => test b
  | None => true
  end.

(** The window test of [get_school_boxes] as one predicate on a row. *)
Definition in_window (start_ping end_ping start_range end_range : option Z)
    (r : Row) : bool :=
  bound_ok start_ping (fun b => endpingindex r >=? b)
  && bound_ok end_ping (fun b => startpingindex r <? b)
  && bound_ok start_range (fun b => lowerdeptindex r >=? b)
  && bound_ok end_range (fun b => upperdeptindex r <? b).

(** The intersection predicate as the specification words it, strict on
    all four sides. *)
Definition spec_strict_window (start_ping end_ping start_range end_range : Z)
    (r : Row) : bool :=
  (endpingindex r >? start_ping) && (startpingindex r <? end_ping)
  && (lowerdeptindex r >? start_range) && (upperdeptindex r <? end_range).


(** An array of shape [(n0, n1, n2)]. *)
Definition has_shape {A : Type} (a : list (list (list A)))
    (n0 n1 n2 : nat) : Prop :=
  length a = n0
  /\ Forall (fun slab =>
              length slab = n1
              /\ Forall (fun row => length row = n2) slab) a.

(** Every row of a slice has [n] range bins. *)
Definition range_length {A : Type} (d : DataArray A) (n : nat) : Prop :=
  match d with
  | DA2 a => Forall (fun row => length row = n) a
  | DA3 a => Forall (Forall (fun row => length row = n)) a
  end.

(** ** Loading a cruise from disk *)

Record CruiseConfig : Type := mkCruiseConfig {
  path : string;
  require_annotations : bool;
  require_bottom : bool;
  require_school_boxes : bool
}.

(** *** [os.path] (POSIX) *)

Definition is_sep (ch : Ascii.ascii) : bool := Ascii.eqb ch "/"%char.

(** [p.rfind("/")], [None] for the -1 of Python. *)
Fixpoint rfind_sep (p : string) : option nat :=
  match p with
  | EmptyString => None
  | String ch rest =>
      match rfind_sep rest with
      | Some i => Some (S i)
      | None => if is_sep ch then Some 0%nat else None
      end
  end.

(** [os.path.split(p)[-1]]: [p[i:]] with [i = p.rfind("/") + 1]. *)
Definition os_path_split_tail (p : string) : string :=
  let i := match rfind_sep p with
           | Some i => S i
           | None => 0%nat
           end in
  substring i (String.length p - i) p.

Definition startswith_sep (s : string) : bool :=
  match s with
  | String ch _ => is_sep ch
  | EmptyString => false
  end.

Fixpoint endswith_sep (s : string) : bool :=
  match s with
  | EmptyString => false
  | String ch EmptyString => is_sep ch
  | String _ rest => endswith_sep rest
  end.

(** One round of the loop of [os.path.join]. *)
Definition join_step (p b : string) : string :=
  if startswith_sep b then b
  else if (p =? "")%string || endswith_sep p then (p ++ b)%string
  else (p ++ "/" ++ b)%string.

Definition os_path_join (a : string) (rest : list string) : string :=
  fold_left join_step rest a.

(** *** Warnings and exceptions of the constructor *)

(** A computation that may issue warnings and may raise: it maps the
    warnings issued so far to its outcome and the warnings issued up to
    its end. *)
Definition io (A : Type) : Type := list string -> result A * list string.

Definition io_ret {A : Type} (a : A) : io A := fun w => (Ok a, w).

Definition io_raise {A : Type} (e : exn) : io A := fun w => (Raise e, w).

Definition io_bind {A B : Type} (m : io A) (k : A -> io B) : io B :=
  fun w =>
    match m w with
    | (Ok a, w') => k a w'
    | (Raise e, w') => (Raise e, w')
    end.

(** [warnings.warn(msg)] *)
Definition warn (msg : string) : io unit := fun w => (Ok tt, w ++ [msg]).

Notation "x <~ m ;; k" := (io_bind m (fun x => k))
  (at level 61, m at next level, right associativity).

Section Loading.

Variable V : Type.

(** The file suffixes of [constants.py], which is not among the
    sources. *)
Variables DATA_FILE_SUFFIX ANNOTATION_FILE_SUFFIX BOTTOM_FILE_SUFFIX
  SCHOOL_BOXES_FILE_SUFFIX : string.

(** What is on disk: the zarr stores [xr.open_zarr] can open and the
    csv files [pd.read_csv] can read, by path; a path that is absent
    makes either raise [FileNotFoundError]. *)
Record FileSystem : Type := mkFileSystem {
  zarr_stores : string -> option (Dataset V);
  csv_files : string -> option DataFrame
}.

Definition _read_name (config : CruiseConfig) : string :=
  os_path_split_tail (path config).

(** The path both readers build. *)
Definition gridded_filepath (config : CruiseConfig) (name suffix : string)
  : string :=
  os_path_join (path config)
    ["ACOUSTIC"; "GRIDDED"; name ++ "_" ++ suffix]%string.

Definition required_message (name filepath : string) : string :=
  ("Required data for cruise `" ++ name ++ "` not found at `"
   ++ filepath ++ "`")%string.

Definition optional_message (name filepath : string) : string :=
  ("Optional data for cruise `" ++ name ++ "` not found at `"
   ++ filepath ++ "`")%string.

(** The [except FileNotFoundError] branch of both readers. *)
Definition not_found {A : Type} (name filepath : string) (required : bool)
  : io (option A) :=
  if required then
    io_raise (FileNotFoundError (required_message name filepath))
  else
    _ <~ warn (optional_message name filepath) ;;
    io_ret None.

Definition _read_zarr_data (fs : FileSystem) (config : CruiseConfig)
    (name suffix : string) (required : bool) : io (option (Dataset V)) :=
  let filepath := gridded_filepath config name suffix in
  match zarr_stores fs filepath with
  | Some ds => io_ret (Some ds)
  | None => not_found name filepath required
  end.

Definition _read_csv_data (fs : FileSystem) (config : CruiseConfig)
    (name suffix : string) (required : bool) : io (option DataFrame) :=
  let filepath := gridded_filepath config name suffix in
  match csv_files fs filepath with
  | Some df => io_ret (Some df)
  | None => not_found name filepath required
  end.

(** [Cruise.__init__].  [_data] is read with [required=True], so the
    reader returns a dataset or raises; the branch for [None] stands for
    a state the constructor cannot reach. *)
Definition __init__ (fs : FileSystem) (config : CruiseConfig)
  : io (Cruise V) :=
  let name := _read_name config in
  data <~ _read_zarr_data fs config name DATA_FILE_SUFFIX true ;;
  annotations <~ _read_zarr_data fs config name ANNOTATION_FILE_SUFFIX
                   (require_annotations config) ;;
  bottom <~ _read_zarr_data fs config name BOTTOM_FILE_SUFFIX
              (require_bottom config) ;;
  school_box_df <~ _read_csv_data fs config name SCHOOL_BOXES_FILE_SUFFIX
                     (require_school_boxes config) ;;
  match data with
  | Some d => io_ret (mkCruise name d annotations bottom school_box_df)
  | None => io_raise (AttributeError "_data")
  end.

(** *** What the constructor finds on disk *)

Definition zarr_on_disk (fs : FileSystem) (config : CruiseConfig)
    (suffix : string) : option (Dataset V) :=
  zarr_stores fs (gridded_filepath config (_read_name config) suffix).

Definition csv_on_disk (fs : FileSystem) (config : CruiseConfig)
    (suffix : string) : option DataFrame :=
  csv_files fs (gridded_filepath config (_read_name config) suffix).

(** The warning for an optional file, when it is absent. *)
Definition missing_warning {A : Type} (config : CruiseConfig)
    (suffix : string) (found : option A) : list string :=
  match found with
  | Some _ => []
  | None =>
      [optional_message (_read_name config)
         (gridded_filepath config (_read_name config) suffix)]
  end.

(** A file that is required and absent. *)
Definition lacks {A : Type} (required : bool) (found : option A) : bool :=
  required && negb (is_some found).

(** The suffix of the first file, in reading order, that is required
    and absent. *)
Definition first_missing_required (fs : FileSystem) (config : CruiseConfig)
  : option string :=
  if lacks true (zarr_on_disk fs config DATA_FILE_SUFFIX)
  then Some DATA_FILE_SUFFIX
  else if lacks (require_annotations config)
            (zarr_on_disk fs config ANNOTATION_FILE_SUFFIX)
  then Some ANNOTATION_FILE_SUFFIX
  else if lacks (require_bottom config)
            (zarr_on_disk fs config BOTTOM_FILE_SUFFIX)
  then Some BOTTOM_FILE_SUFFIX
  else if lacks (require_school_boxes config)
            (csv_on_disk fs config SCHOOL_BOXES_FILE_SUFFIX)
  then Some SCHOOL_BOXES_FILE_SUFFIX
  else None.

End Loading.

(** *** An example directory *)

Definition ex_config : CruiseConfig :=
  mkCruiseConfig "/data/2019/S2019847" true false true.

Definition ex_path (suffix : string) : string :=
  ("/data/2019/S2019847/ACOUSTIC/GRIDDED/S2019847_" ++ suffix)%string.

(** The backscatter, the annotations and the school boxes are on disk;
    the bottom file is not. *)
Definition ex_fs : FileSystem Z :=
  mkFileSystem
    (fun p => if (p =? ex_path "sv.zarr")%string then Some ex_data
              else if (p =? ex_path "labels.zarr")%string
                   then Some ex_annotations
                   else None)
    (fun p => if (p =? ex_path "boxes.csv")%string then Some ex_rows
              else None).

Definition ex_init (config : CruiseConfig) : io (Cruise Z) :=
  __init__ "sv.zarr" "labels.zarr" "bottom.zarr" "boxes.csv" ex_fs config.

(** The warning for the absent bottom file. *)
Definition ex_warning : string :=
  "Optional data for cruise `S2019847` not found at `/data/2019/S2019847/ACOUSTIC/GRIDDED/S2019847_bottom.zarr`".

(** The same directory with the bottom file required, and written with
    a trailing separator. *)
Definition ex_config_bottom : CruiseConfig :=
  mkCruiseConfig "/data/2019/S2019847" true true true.

Definition ex_config_trailing : CruiseConfig :=
  mkCruiseConfig "/data/2019/S2019847/" false false false.

(** A directory with no backscatter store. *)
Definition ex_fs_empty : FileSystem Z :=
  mkFileSystem (fun _ => None) (fun _ => None).

(** * Properties *)

(** ** Lists, filters and sorting *)

Lemma filter_filter {A : Type} (f g : A -> bool) (l : list A) :
  filter g (filter f l) = filter (fun x => f x && g x) l.
Proof.
  induction l as [| x l IH]; simpl; [reflexivity|].
  destruct (f x); simpl; [destruct (g x)|]; now rewrite IH.
Qed.

Lemma isin_In (values : list Z) (x : Z) :
  isin values x = true <-> In x values.
Proof.
  unfold isin. rewrite existsb_exists. split.
  - intros [y [Hy Heq]]. apply Z.eqb_eq in Heq. now subst.
  - intros H. exists x. split; [assumption | apply Z.eqb_refl].
Qed.

Lemma isin_singleton (k x : Z) : isin [k] x = (x =? k).
Proof. unfold isin. simpl. now rewrite orb_false_r. Qed.

Lemma insert_sorted_perm (x : Z) (l : list Z) :
  Permutation (x :: l) (insert_sorted x l).
Proof.
  induction l as [| y l IH]; simpl; [apply Permutation_refl|].
  destruct (x <=? y); [apply Permutation_refl|].
  eapply perm_trans; [apply perm_swap|]. now apply perm_skip.
Qed.

Lemma sorted_perm (l : list Z) : Permutation l (sorted l).
Proof.
  induction l as [| x l IH]; simpl; [constructor|].
  eapply perm_trans; [apply perm_skip, IH | apply insert_sorted_perm].
Qed.

Lemma insert_sorted_Sorted (x : Z) (l : list Z) :
  Sorted Z.le l -> Sorted Z.le (insert_sorted x l).
Proof.
  induction l as [| y l IH]; simpl; intros Hs.
  - repeat constructor.
  - destruct (Z.leb_spec x y) as [Hle | Hgt].
    + constructor; [assumption | constructor; assumption].
    + inversion Hs as [| ? ? Hl Hhd]; subst.
      constructor; [now apply IH|].
      destruct l as [| z l]; simpl.
      * constructor. lia.
      * destruct (x <=? z); constructor; [lia|].
        now inversion Hhd.
Qed.

Lemma sorted_Sorted (l : list Z) : Sorted Z.le (sorted l).
Proof.
  induction l as [| x l IH]; simpl; [constructor|].
  now apply insert_sorted_Sorted.
Qed.

(** ** The school-box query *)

Section SchoolBoxes.

Variable V : Type.
Implicit Types (c : Cruise V) (rows : DataFrame) (cats : selector).

Lemma loc_if_some (bound : option Z) (mask : Z -> Row -> bool) rows :
  loc_if bound mask (Some rows)
  = Ok (Some (filter (fun r => bound_ok bound (fun b => mask b r)) rows)).
Proof.
  destruct bound; simpl; [reflexivity|].
  f_equal. f_equal. induction rows; simpl; congruence.
Qed.

(** With a table, the four conditional filters and the category filter
    amount to one filter. *)
Lemma get_school_boxes_table c rows sp ep sr er cats :
  _school_box_df c = Some rows ->
  get_school_boxes c sp ep sr er cats
  = (cl <- selected_categories c cats ;;
     Ok (filter (fun r => in_window sp ep sr er r && isin cl (category r))
           rows)).
Proof.
  intros Hdf. unfold get_school_boxes. rewrite Hdf.
  rewrite loc_if_some. cbn [bind].
  rewrite loc_if_some. cbn [bind].
  rewrite loc_if_some. cbn [bind].
  rewrite loc_if_some. cbn [bind].
  destruct (selected_categories c cats) as [cl | e]; cbn [bind loc];
    [| reflexivity].
  f_equal. rewrite !filter_filter. apply filter_ext.
  intros r. unfold in_window. now rewrite !andb_assoc.
Qed.

(** Without a table every path reaches a read of [.loc] on [None],
    unless [self.categories()] raises first. *)
Lemma get_school_boxes_no_table c sp ep sr er cats :
  _school_box_df c = None ->
  get_school_boxes c sp ep sr er cats = Raise (AttributeError "loc")
  \/ (cats = SelNone /\ _annotations c = None
      /\ get_school_boxes c sp ep sr er cats
         = Raise (FileNotFoundError
                    ("Annotations are not available for cruise " ++ name c))).
Proof.
  intros Hdf. unfold get_school_boxes. rewrite Hdf.
  destruct sp; [now left|].
  destruct ep; [now left|].
  destruct sr; [now left|].
  destruct er; [now left|].
  cbn [loc_if bind].
  destruct cats; cbn [selected_categories bind loc]; try now left.
  unfold categories. destruct (_annotations c); cbn [bind loc].
  - now left.
  - right. auto.
Qed.

(** C1 (as amended): on a survey with a school-box table, for a window
    [start_ping, end_ping) x [start_range, end_range) and a category
    selection that resolves to the list [cl], [get_school_boxes] returns
    exactly the rows of the table, in table order, with
    endpingindex >= start_ping, startpingindex < end_ping,
    lowerdeptindex >= start_range, upperdeptindex < end_range and a
    category in [cl].  The two lower edges are not strict: a box whose
    endpingindex equals start_ping, or whose lowerdeptindex equals
    start_range, is kept when its other three sides and its category
    pass. *)
Theorem get_school_boxes_window c rows start_ping end_ping start_range
    end_range cats cl :
  _school_box_df c = Some rows ->
  selected_categories c cats = Ok cl ->
  exists out,
    get_school_boxes c (Some start_ping) (Some end_ping) (Some start_range)
      (Some end_range) cats = Ok out
    /\ out = filter (fun r => (endpingindex r >=? start_ping)
                              && (startpingindex r <? end_ping)
                              && (lowerdeptindex r >=? start_range)
                              && (upperdeptindex r <? end_range)
                              && isin cl (category r)) rows
    /\ (forall r, In r out <->
          In r rows
          /\ endpingindex r >= start_ping /\ startpingindex r < end_ping
          /\ lowerdeptindex r >= start_range /\ upperdeptindex r < end_range
          /\ In (category r) cl)
    /\ (forall r, In r rows -> In (category r) cl ->
          startpingindex r < end_ping -> upperdeptindex r < end_range ->
          (endpingindex r = start_ping /\ lowerdeptindex r >= start_range
           \/ lowerdeptindex r = start_range /\ endpingindex r >= start_ping) ->
          In r out).
Proof.
  intros Hdf Hcl.
  rewrite get_school_boxes_table with (rows := rows) by exact Hdf.
  rewrite Hcl. cbn [bind].
  eexists. split; [reflexivity|]. split; [reflexivity|].
  assert (Hin : forall r,
    In r (filter (fun r => in_window (Some start_ping) (Some end_ping)
                             (Some start_range) (Some end_range) r
                           && isin cl (category r)) rows) <->
    In r rows
    /\ endpingindex r >= start_ping /\ startpingindex r < end_ping
    /\ lowerdeptindex r >= start_range /\ upperdeptindex r < end_range
    /\ In (category r) cl).
  { intros r. rewrite filter_In. unfold in_window, bound_ok.
    rewrite !andb_true_iff, isin_In, Z.geb_le, Z.geb_le, !Z.ltb_lt.
    intuition lia. }
  split; [exact Hin|].
  intros r Hr Hcat Hs Hu Hedge. apply Hin. intuition lia.
Qed.

(** C2 (as amended): an explicitly requested category list is never
    checked against the catalogue.  On a survey with a school-box table
    the query returns normally, for every list, the rows that pass the
    window filter and carry a requested category; a category that no row
    carries, in the catalogue or not, contributes nothing, and a request
    no row matches returns the empty table. *)
Theorem get_school_boxes_explicit_categories c rows sp ep sr er
    (requested : list Z) :
  _school_box_df c = Some rows ->
  exists out,
    get_school_boxes c sp ep sr er (SelList requested) = Ok out
    /\ (forall r, In r out <->
          In r rows /\ in_window sp ep sr er r = true
          /\ In (category r) requested)
    /\ ((forall r, In r rows -> ~ In (category r) requested) -> out = []).
Proof.
  intros Hdf. rewrite get_school_boxes_table with (rows := rows) by exact Hdf.
  cbn [selected_categories bind].
  eexists. split; [reflexivity|].
  assert (Hin : forall r,
    In r (filter (fun r => in_window sp ep sr er r
                           && isin requested (category r)) rows) <->
    In r rows /\ in_window sp ep sr er r = true
    /\ In (category r) requested).
  { intros r. rewrite filter_In, andb_true_iff, isin_In. tauto. }
  split; [exact Hin|].
  intros Hnone.
  destruct (filter _ rows) as [| r out] eqn:Hf; [reflexivity|].
  exfalso. destruct (proj1 (Hin r)) as (Hr & _ & Hc).
  - now left.
  - exact (Hnone r Hr Hc).
Qed.


(** C6: for a category [k] of the catalogue, on a survey with a
    school-box table, the query restricted to [categories=[k]] returns
    exactly the rows of the unfiltered query (categories=None) whose
    category is [k]: a sub-selection of it, no longer than it, whose
    labels are labels of the unfiltered result; these are exactly the
    rows of the table that pass the window filter and have category
    [k]. *)
Theorem get_school_boxes_category_subset c rows sp ep sr er (k : Z)
    (catalog : list Z) :
  _school_box_df c = Some rows ->
  categories c = Ok catalog ->
  In k catalog ->
  exists out_k out_all,
    get_school_boxes c sp ep sr er (SelList [k]) = Ok out_k
    /\ get_school_boxes c sp ep sr er SelNone = Ok out_all
    /\ out_k = filter (fun r => category r =? k) out_all
    /\ incl out_k out_all
    /\ incl (map category out_k) (map category out_all)
    /\ (length out_k <= length out_all)%nat
    /\ out_k = filter (fun r => in_window sp ep sr er r && (category r =? k))
                 rows.
Proof.
  intros Hdf Hcat Hk.
  rewrite !get_school_boxes_table with (rows := rows) by exact Hdf.
  cbn [selected_categories]. rewrite Hcat. cbn [bind].
  do 2 eexists. split; [reflexivity|]. split; [reflexivity|].
  assert (Hk_all :
    filter (fun r => in_window sp ep sr er r && isin [k] (category r)) rows
    = filter (fun r => category r =? k)
        (filter (fun r => in_window sp ep sr er r
                          && isin catalog (category r)) rows)).
  { rewrite filter_filter. apply filter_ext_in. intros r _.
    rewrite isin_singleton.
    destruct (Z.eqb_spec (category r) k) as [-> | Hne].
    - apply isin_In in Hk. rewrite Hk. now rewrite !andb_true_r.
    - now rewrite !andb_false_r. }
  assert (Hincl :
    incl (filter (fun r => in_window sp ep sr er r && isin [k] (category r))
            rows)
         (filter (fun r => in_window sp ep sr er r
                           && isin catalog (category r)) rows)).
  { rewrite Hk_all. intros r Hr. now apply filter_In in Hr. }
  split; [exact Hk_all|]. split; [exact Hincl|].
  split; [now apply incl_map|].
  split.
  - rewrite Hk_all. apply filter_length_le.
  - apply filter_ext. intros r. now rewrite isin_singleton.
Qed.

(** C7: an integer [k] as the categories argument gives the result of
    the singleton list [k], and categories=None gives the result of
    passing the list [categories()] returns, on every survey and for
    every window (raised exceptions included). *)
Theorem get_school_boxes_categories_default c sp ep sr er :
  (forall k : Z,
      get_school_boxes c sp ep sr er (SelInt k)
      = get_school_boxes c sp ep sr er (SelList [k]))
  /\ (forall catalog : list Z,
        categories c = Ok catalog ->
        get_school_boxes c sp ep sr er SelNone
        = get_school_boxes c sp ep sr er (SelList catalog)).
Proof.
  split.
  - intros k. reflexivity.
  - intros catalog Hcat. unfold get_school_boxes.
    cbn [selected_categories]. now rewrite Hcat.
Qed.

(** C8: on a survey with an annotation volume, [categories] returns the
    category labels of the volume other than the sentinel -1, each as
    often as it occurs there, in ascending order. *)
Theorem categories_sorted_without_sentinel c (a : Dataset V) :
  _annotations c = Some a ->
  exists cl,
    categories c = Ok cl
    /\ StronglySorted Z.le cl
    /\ (forall x, In x cl <-> In x (coord a) /\ x <> -1)
    /\ ~ In (-1) cl
    /\ Permutation (filter (fun cat => negb (cat =? -1)) (coord a)) cl.
Proof.
  intros Ha. unfold categories. rewrite Ha.
  eexists. split; [reflexivity|].
  pose proof (sorted_perm (filter (fun cat => negb (cat =? -1)) (coord a)))
    as Hperm.
  assert (Hin : forall x,
    In x (sorted (filter (fun cat => negb (cat =? -1)) (coord a)))
    <-> In x (coord a) /\ x <> -1).
  { intros x. split.
    - intros Hx. apply (Permutation_in _ (Permutation_sym Hperm)) in Hx.
      apply filter_In in Hx. destruct Hx as [Hx Hne].
      split; [assumption|]. apply negb_true_iff, Z.eqb_neq in Hne. exact Hne.
    - intros [Hx Hne]. apply (Permutation_in _ Hperm).
      apply filter_In. split; [assumption|].
      now apply negb_true_iff, Z.eqb_neq. }
  split.
  - apply Sorted_StronglySorted; [| apply sorted_Sorted].
    intros x y z. apply Z.le_trans.
  - split; [exact Hin|]. split; [| exact Hperm].
    intros Hm. apply Hin in Hm. now destruct Hm.
Qed.

(** C9: on a survey whose annotation volume is not loaded, every call of
    [get_school_boxes] with categories=None raises; when the school-box
    table is present the exception is the [FileNotFoundError] of
    [categories], for every window. *)
Theorem get_school_boxes_default_needs_annotations c sp ep sr er :
  annotations_available c = false ->
  is_ok (get_school_boxes c sp ep sr er SelNone) = false
  /\ (school_boxes_available c = true ->
      get_school_boxes c sp ep sr er SelNone
      = Raise (FileNotFoundError
                 ("Annotations are not available for cruise " ++ name c))).
Proof.
  unfold annotations_available, school_boxes_available. intros Hann.
  destruct (_annotations c) as [a |] eqn:Ha; [discriminate|].
  destruct (_school_box_df c) as [rows |] eqn:Hdf.
  - rewrite get_school_boxes_table with (rows := rows) by exact Hdf.
    cbn [selected_categories]. unfold categories. rewrite Ha.
    cbn [bind is_ok]. split; reflexivity.
  - split; [| discriminate].
    destruct (get_school_boxes_no_table c sp ep sr er SelNone Hdf)
      as [H | (_ & _ & H)]; now rewrite H.
Qed.

End SchoolBoxes.

(** ** Slices *)


Lemma slice_indices_past_end (n : nat) (extra : Z) :
  0 <= extra ->
  slice_indices (Some 0) (Some (Z.of_nat n + extra)) n = seq 0 n.
Proof.
  intros Hextra. unfold slice_indices, slice_bound.
  destruct (Z.ltb_spec (Z.of_nat n + extra) 0) as [Hneg | _]; [lia|].
  cbn [Z.ltb Z.compare]. f_equal; lia.
Qed.



Lemma index_of_nth_error (x : Z) (l : list Z) (i : nat) :
  index_of x l = Some i -> nth_error l i = Some x.
Proof.
  revert i. induction l as [| y l IH]; simpl; intros i Hi; [discriminate|].
  destruct (Z.eqb_spec x y) as [-> | Hne].
  - now injection Hi as <-.
  - destruct (index_of x l) as [j |]; simpl in Hi; [| discriminate].
    injection Hi as <-. simpl. now apply IH.
Qed.

Lemma index_of_In (x : Z) (l : list Z) :
  In x l -> exists i, index_of x l = Some i.
Proof.
  induction l as [| y l IH]; simpl; intros Hx; [contradiction|].
  destruct (Z.eqb_spec x y) as [-> | Hne]; [now eexists|].
  destruct Hx as [-> | Hx]; [congruence|].
  destruct (IH Hx) as [i ->]. now eexists.
Qed.

Lemma is_unique_NoDup (l : list Z) : is_unique l = true <-> NoDup l.
Proof.
  induction l as [| x l IH]; simpl.
  - split; [constructor | reflexivity].
  - rewrite andb_true_iff, negb_true_iff, IH. split.
    + intros [Hx Hl]. constructor; [| assumption].
      intros Hin. apply isin_In in Hin. unfold isin in Hin. congruence.
    + intros Hnd. inversion Hnd as [| ? ? Hx Hl]; subst.
      split; [| assumption].
      destruct (existsb (Z.eqb x) l) eqn:Hex; [| reflexivity].
      exfalso. apply Hx. now apply isin_In.
Qed.

Lemma get_indexer_ok (coord labels : list Z) :
  (forall f, In f labels -> In f coord) ->
  exists js,
    get_indexer coord labels = Ok js
    /\ length js = length labels
    /\ (forall i, In i js ->
          exists f, In f labels /\ nth_error coord i = Some f).
Proof.
  induction labels as [| x rest IH]; intros Hall.
  - exists []. simpl. intuition.
  - destruct IH as (js & Hjs & Hlen & Hpos).
    { intros f Hf. apply Hall. now right. }
    destruct (index_of_In x coord) as [i Hi]; [apply Hall; now left|].
    exists (i :: js). simpl. rewrite Hi, Hjs. cbn [bind].
    split; [reflexivity|]. split; [now rewrite Hlen|].
    intros j [<- | Hj].
    + exists x. split; [now left | now apply index_of_nth_error].
    + destruct (Hpos j Hj) as (f & Hf & Hnth). exists f. auto.
Qed.

(** On a coordinate without repeated label, a selection of labels that
    all exist succeeds, position by position. *)
Lemma sel_labels_ok (coord labels : list Z) :
  NoDup coord ->
  (forall f, In f labels -> In f coord) ->
  exists js,
    sel_labels coord labels = Ok js
    /\ length js = length labels
    /\ (forall i, In i js ->
          exists f, In f labels /\ nth_error coord i = Some f).
Proof.
  intros Hnd Hall. unfold sel_labels.
  rewrite (proj2 (is_unique_NoDup coord) Hnd).
  now apply get_indexer_ok.
Qed.

Lemma sel_labels_repeated (coord labels : list Z) :
  ~ NoDup coord -> sel_labels coord labels = Raise InvalidIndexError.
Proof.
  intros Hnd. unfold sel_labels.
  destruct (is_unique coord) eqn:Hu; [| reflexivity].
  apply is_unique_NoDup in Hu. contradiction.
Qed.

Lemma positions_of_absent (x : Z) (l : list Z) (start : nat) :
  (forall j, nth_error l j <> Some x) -> positions_of x l start = [].
Proof.
  revert start. induction l as [| y l IH]; intros start Habs; simpl;
    [reflexivity|].
  destruct (Z.eqb_spec x y) as [-> | Hne].
  - exfalso. now apply (Habs 0%nat).
  - apply IH. intros j. exact (Habs (S j)).
Qed.

(** A label that occurs at one position only is located there. *)
Lemma positions_of_single (x : Z) (l : list Z) (i start : nat) :
  nth_error l i = Some x ->
  (forall j, nth_error l j = Some x -> j = i) ->
  positions_of x l start = [(start + i)%nat].
Proof.
  revert i start. induction l as [| y l IH]; intros i start Hi Honly.
  - destruct i; discriminate.
  - simpl. destruct i as [| i]; simpl in Hi.
    + injection Hi as ->. rewrite Z.eqb_refl, Nat.add_0_r. f_equal.
      apply positions_of_absent. intros j Hj.
      specialize (Honly (S j) Hj). discriminate.
    + destruct (Z.eqb_spec x y) as [-> | Hne].
      * specialize (Honly 0%nat eq_refl). discriminate.
      * rewrite (IH i (S start) Hi).
        -- f_equal. lia.
        -- intros j Hj. specialize (Honly (S j) Hj). now injection Honly.
Qed.

Lemma sel_label_single (coord : list Z) (x : Z) (i : nat) :
  nth_error coord i = Some x ->
  (forall j, nth_error coord j = Some x -> j = i) ->
  sel_label coord x = Ok (One i).
Proof.
  intros Hi Honly. unfold sel_label.
  now rewrite (@positions_of_single x coord i 0%nat Hi Honly).
Qed.

Lemma NoDup_nth_error_only (coord : list Z) (x : Z) (i : nat) :
  NoDup coord -> nth_error coord i = Some x ->
  forall j, nth_error coord j = Some x -> j = i.
Proof.
  intros Hnd Hi j Hj.
  apply (proj1 (NoDup_nth_error coord) Hnd).
  - apply nth_error_Some. congruence.
  - congruence.
Qed.

Section Slices.

Variable V : Type.
Implicit Types (c : Cruise V) (d : Dataset V).

Lemma isel_range_length d (pings ranges : list nat) (i : nat) :
  Forall (fun row => length row = length ranges) (isel d pings ranges i).
Proof.
  unfold isel. apply Forall_forall. intros row Hrow.
  apply in_map_iff in Hrow. destruct Hrow as (p & <- & _).
  apply length_map.
Qed.

Lemma read_block_range_length d labels (pings ranges : list nat)
    (arr : DataArray V) :
  read_block d labels pings ranges = Ok arr ->
  range_length arr (length ranges).
Proof.
  unfold read_block. destruct labels as [k | l].
  - destruct (sel_label (coord d) k) as [[i | js] |]; cbn [bind];
      [| | discriminate]; intros [= <-]; simpl.
    + apply isel_range_length.
    + apply Forall_forall. intros slab Hslab.
      apply in_map_iff in Hslab. destruct Hslab as (i & <- & _).
      apply isel_range_length.
  - destruct (sel_labels (coord d) l) as [js |]; cbn [bind]; [| discriminate].
    intros [= <-]. simpl. apply Forall_forall. intros slab Hslab.
    apply in_map_iff in Hslab. destruct Hslab as (i & <- & _).
    apply isel_range_length.
Qed.

Lemma sel_isel_range_length d labels sp ep sr er (arr : DataArray V) :
  sel_isel d labels sp ep sr er = Ok arr ->
  range_length arr (length (slice_indices sr er (sizes_range d))).
Proof. apply read_block_range_length. Qed.


End Slices.

(** ** Slice assignment *)

Section AssignSlice.

Variables A B : Type.
Variable put : B -> A -> A.









End AssignSlice.






(** ** Patch cropping *)

Section Cropping.

Variable V : Type.
Implicit Types (survey : Cruise V) (boundary_val : V).


(** On a survey that repeats a frequency label the selection of the
    frequencies raises, whatever the window and the selection. *)
Lemma crop_data_repeated_label survey center patch_size freqs boundary_val :
  ~ NoDup (frequencies survey) ->
  crop_data survey center patch_size freqs boundary_val
  = Raise InvalidIndexError.
Proof.
  intros Hnd. destruct center as [center_ping center_range].
  destruct patch_size as [height width].
  unfold crop_data, get_sv_slice, sel_isel, read_block. cbn [or_default].
  unfold frequencies in Hnd. now rewrite sel_labels_repeated.
Qed.



End Cropping.

(** ** The properties on the example survey *)

(** The strict predicate of the specification does not describe the
    query: for the window [10, 20) x [20, 100) the result holds the box
    that ends at ping 10 and the box whose lower edge is range 20, and
    differs from the rows the strict predicate selects. *)
Lemma get_school_boxes_strict_window_counterexample :
  exists out,
    get_school_boxes ex_cruise (Some 10) (Some 20) (Some 20) (Some 100)
      SelNone = Ok out
    /\ out <> filter (spec_strict_window 10 20 20 100) ex_rows
    /\ In (mkRow 2 10 5 30 1) out
    /\ In (mkRow 14 18 0 20 1) out.
Proof.
  eexists. split; [vm_compute; reflexivity|].
  split; [vm_compute; discriminate|].
  split; simpl; auto.
Qed.

Lemma get_school_boxes_window_witness :
  _school_box_df ex_cruise = Some ex_rows
  /\ selected_categories ex_cruise SelNone = Ok [1; 27]
  /\ exists out,
       get_school_boxes ex_cruise (Some 10) (Some 20) (Some 20) (Some 100)
         SelNone = Ok out
       /\ out = [mkRow 2 10 5 30 1; mkRow 12 15 40 60 27; mkRow 14 18 0 20 1].
Proof.
  split; [reflexivity|]. split; [reflexivity|].
  destruct (@get_school_boxes_window Z ex_cruise ex_rows 10 20 20 100
              SelNone [1; 27] eq_refl eq_refl) as (out & Hout & Heq & _).
  exists out. split; [exact Hout|]. rewrite Heq. reflexivity.
Defined.

(** A category that is not in the catalogue raises nothing: category 99,
    which no row carries, gives the empty table, and category 5, which
    one row carries, gives that row. *)
Lemma get_school_boxes_unknown_category_counterexample :
  categories ex_cruise = Ok [1; 27]
  /\ ~ In 99 [1; 27] /\ ~ In 5 [1; 27]
  /\ get_school_boxes ex_cruise None None None None (SelList [99]) = Ok []
  /\ get_school_boxes ex_cruise None None None None (SelList [5])
     = Ok [mkRow 50 60 30 50 5].
Proof.
  split; [reflexivity|].
  split; [simpl; intuition discriminate|].
  split; [simpl; intuition discriminate|].
  split; reflexivity.
Qed.

Lemma get_school_boxes_explicit_categories_witness :
  _school_box_df ex_cruise = Some ex_rows
  /\ exists out,
       get_school_boxes ex_cruise (Some 10) None None None (SelList [99])
       = Ok out
       /\ out = [].
Proof.
  split; [reflexivity|].
  destruct (@get_school_boxes_explicit_categories Z ex_cruise ex_rows
              (Some 10) None None None [99] eq_refl)
    as (out & Hout & _ & Hempty).
  exists out. split; [exact Hout|]. apply Hempty.
  intros r Hr. simpl in Hr.
  repeat (destruct Hr as [<- | Hr]; [simpl; intuition discriminate|]).
  destruct Hr.
Defined.



Lemma get_school_boxes_category_subset_witness :
  _school_box_df ex_cruise = Some ex_rows
  /\ categories ex_cruise = Ok [1; 27]
  /\ In 1 [1; 27]
  /\ exists out_k out_all,
       get_school_boxes ex_cruise (Some 10) (Some 20) None None (SelList [1])
       = Ok out_k
       /\ get_school_boxes ex_cruise (Some 10) (Some 20) None None SelNone
          = Ok out_all
       /\ incl out_k out_all.
Proof.
  split; [reflexivity|]. split; [reflexivity|]. split; [simpl; auto|].
  destruct (@get_school_boxes_category_subset Z ex_cruise ex_rows
              (Some 10) (Some 20) None None 1 [1; 27] eq_refl eq_refl
              (or_introl eq_refl))
    as (out_k & out_all & Hk & Hall & _ & Hincl & _).
  exists out_k, out_all. auto.
Defined.

Lemma get_school_boxes_categories_default_witness :
  categories ex_cruise = Ok [1; 27]
  /\ get_school_boxes ex_cruise (Some 10) (Some 20) None None SelNone
     = get_school_boxes ex_cruise (Some 10) (Some 20) None None
         (SelList [1; 27]).
Proof.
  split; [reflexivity|].
  apply (proj2 (@get_school_boxes_categories_default Z ex_cruise (Some 10)
                  (Some 20) None None)).
  reflexivity.
Defined.

Lemma categories_sorted_without_sentinel_witness :
  _annotations ex_cruise = Some ex_annotations
  /\ exists cl, categories ex_cruise = Ok cl /\ StronglySorted Z.le cl
                /\ ~ In (-1) cl.
Proof.
  split; [reflexivity|].
  destruct (@categories_sorted_without_sentinel Z ex_cruise ex_annotations
              eq_refl) as (cl & Hcl & Hsorted & _ & Hsentinel & _).
  exists cl. auto.
Defined.

Lemma get_school_boxes_default_needs_annotations_witness :
  annotations_available ex_cruise_no_annotations = false
  /\ school_boxes_available ex_cruise_no_annotations = true
  /\ get_school_boxes ex_cruise_no_annotations (Some 10) (Some 20) None None
       SelNone
     = Raise (FileNotFoundError
                "Annotations are not available for cruise S2019847").
Proof.
  split; [reflexivity|]. split; [reflexivity|].
  apply (proj2 (@get_school_boxes_default_needs_annotations Z
                  ex_cruise_no_annotations (Some 10) (Some 20) None None
                  eq_refl)).
  reflexivity.
Defined.







(** ** Construction of a cruise *)

Section LoadingProperties.

Variable V : Type.
Variables DATA_FILE_SUFFIX ANNOTATION_FILE_SUFFIX BOTTOM_FILE_SUFFIX
  SCHOOL_BOXES_FILE_SUFFIX : string.
Implicit Types (fs : FileSystem V) (config : CruiseConfig)
  (w : list string).

Local Notation init :=
  (__init__ DATA_FILE_SUFFIX ANNOTATION_FILE_SUFFIX BOTTOM_FILE_SUFFIX
     SCHOOL_BOXES_FILE_SUFFIX).
Local Notation on_disk_data fs config :=
  (zarr_on_disk fs config DATA_FILE_SUFFIX).
Local Notation on_disk_annotations fs config :=
  (zarr_on_disk fs config ANNOTATION_FILE_SUFFIX).
Local Notation on_disk_bottom fs config :=
  (zarr_on_disk fs config BOTTOM_FILE_SUFFIX).
Local Notation on_disk_boxes fs config :=
  (csv_on_disk fs config SCHOOL_BOXES_FILE_SUFFIX).

Ltac run_init :=
  cbv [__init__ _read_zarr_data _read_csv_data not_found io_bind io_ret
       io_raise warn zarr_on_disk csv_on_disk missing_warning lacks is_some
       first_missing_required andb negb] in *.

Ltac split_disk fs config :=
  destruct (zarr_stores fs
              (gridded_filepath config (_read_name config) DATA_FILE_SUFFIX))
    as [d0 |] eqn:Hdata0;
  destruct (zarr_stores fs
              (gridded_filepath config (_read_name config)
                 ANNOTATION_FILE_SUFFIX)) as [a0 |] eqn:Hann0;
  destruct (zarr_stores fs
              (gridded_filepath config (_read_name config)
                 BOTTOM_FILE_SUFFIX)) as [b0 |] eqn:Hbot0;
  destruct (csv_files fs
              (gridded_filepath config (_read_name config)
                 SCHOOL_BOXES_FILE_SUFFIX)) as [s0 |] eqn:Hbox0.

(** What a successful construction read, and what it warned about. *)
Lemma init_inversion fs config w (c : Cruise V) w' :
  init fs config w = (Ok c, w') ->
  exists d,
    on_disk_data fs config = Some d
    /\ c = mkCruise (_read_name config) d (on_disk_annotations fs config)
             (on_disk_bottom fs config) (on_disk_boxes fs config)
    /\ lacks (require_annotations config) (on_disk_annotations fs config)
       = false
    /\ lacks (require_bottom config) (on_disk_bottom fs config) = false
    /\ lacks (require_school_boxes config) (on_disk_boxes fs config) = false
    /\ w' = w ++ missing_warning config ANNOTATION_FILE_SUFFIX
                   (on_disk_annotations fs config)
              ++ missing_warning config BOTTOM_FILE_SUFFIX
                   (on_disk_bottom fs config)
              ++ missing_warning config SCHOOL_BOXES_FILE_SUFFIX
                   (on_disk_boxes fs config).
Proof.
  intros Hinit. run_init. revert Hinit. split_disk fs config;
    destruct (require_annotations config), (require_bottom config),
      (require_school_boxes config);
    intros [= <- <-] || intros [=];
    (eexists; split; [reflexivity|]; split; [reflexivity|];
     repeat (split; [reflexivity|]);
     repeat rewrite <- app_assoc; cbn [app]; rewrite ?app_nil_r;
     reflexivity).
Qed.

(** X1: the constructor succeeds when the backscatter store is on disk
    and every dataset the configuration requires is on disk.  The cruise
    then holds the name read from the path, the backscatter store and,
    for each optional dataset, what is on disk ([None] when absent); one
    warning is issued per absent optional dataset, in the order
    annotations, bottom, school boxes, after the warnings issued
    before. *)
Theorem init_succeeds fs config w (d : Dataset V) :
  on_disk_data fs config = Some d ->
  (require_annotations config = true ->
   is_some (on_disk_annotations fs config) = true) ->
  (require_bottom config = true ->
   is_some (on_disk_bottom fs config) = true) ->
  (require_school_boxes config = true ->
   is_some (on_disk_boxes fs config) = true) ->
  init fs config w
  = (Ok (mkCruise (_read_name config) d (on_disk_annotations fs config)
           (on_disk_bottom fs config) (on_disk_boxes fs config)),
     w ++ missing_warning config ANNOTATION_FILE_SUFFIX
            (on_disk_annotations fs config)
       ++ missing_warning config BOTTOM_FILE_SUFFIX
            (on_disk_bottom fs config)
       ++ missing_warning config SCHOOL_BOXES_FILE_SUFFIX
            (on_disk_boxes fs config)).
Proof.
  intros Hdata Hann Hbot Hbox. run_init. revert Hdata Hann Hbot Hbox.
  split_disk fs config;
    destruct (require_annotations config), (require_bottom config),
      (require_school_boxes config);
    intros Hdata Hann Hbot Hbox;
    try discriminate Hdata;
    try (specialize (Hann eq_refl); discriminate Hann);
    try (specialize (Hbot eq_refl); discriminate Hbot);
    try (specialize (Hbox eq_refl); discriminate Hbox);
    injection Hdata as <-;
    repeat rewrite <- app_assoc; cbn [app]; rewrite ?app_nil_r;
    reflexivity.
Qed.

(** X2: when a required file is absent the constructor raises
    [FileNotFoundError] with the message "Required data for cruise
    `name` not found at `path`" for the first such file in the order
    backscatter, annotations, bottom, school boxes.  The backscatter
    store is required whatever the configuration says, and its absence
    raises before any warning is issued; the warnings issued before the
    call are kept in every case. *)
Theorem init_raises_first_missing fs config w (suffix : string) :
  first_missing_required DATA_FILE_SUFFIX ANNOTATION_FILE_SUFFIX
    BOTTOM_FILE_SUFFIX SCHOOL_BOXES_FILE_SUFFIX fs config = Some suffix ->
  exists issued,
    init fs config w
    = (Raise (FileNotFoundError
                (required_message (_read_name config)
                   (gridded_filepath config (_read_name config) suffix))),
       w ++ issued)
    /\ (on_disk_data fs config = None ->
        suffix = DATA_FILE_SUFFIX /\ issued = []).
Proof.
  intros Hfirst. run_init. revert Hfirst.
  split_disk fs config;
    destruct (require_annotations config), (require_bottom config),
      (require_school_boxes config);
    intros [= <-];
    match goal with
    | |- exists _, (_, ?out) = _ /\ _ =>
        match out with
        | w => exists []
        | w ++ ?x => exists x
        | (w ++ ?x) ++ ?y => exists (x ++ y)
        end
    end;
    (split;
     [ repeat rewrite <- app_assoc; cbn [app]; rewrite ?app_nil_r;
       reflexivity
     | intros Hnone; try discriminate Hnone; split; reflexivity ]).
Qed.

(** X3: after a successful construction, [annotations_available],
    [bottom_available] and [school_boxes_available] tell whether the
    file is on disk, and each dataset the configuration required is
    available. *)
Theorem init_availability fs config w (c : Cruise V) w' :
  init fs config w = (Ok c, w') ->
  name c = _read_name config
  /\ on_disk_data fs config = Some (_data c)
  /\ annotations_available c = is_some (on_disk_annotations fs config)
  /\ bottom_available c = is_some (on_disk_bottom fs config)
  /\ school_boxes_available c = is_some (on_disk_boxes fs config)
  /\ (require_annotations config = true -> annotations_available c = true)
  /\ (require_bottom config = true -> bottom_available c = true)
  /\ (require_school_boxes config = true ->
      school_boxes_available c = true).
Proof.
  intros Hinit.
  destruct (init_inversion _ _ _ Hinit)
    as (d & Hd & -> & Hann & Hbot & Hbox & _).
  unfold annotations_available, bottom_available, school_boxes_available.
  cbn [name _data _annotations _bottom _school_box_df].
  unfold lacks in Hann, Hbot, Hbox.
  repeat split; try assumption; try reflexivity;
    intros Hreq; rewrite Hreq in *; cbn [andb] in *;
    now apply negb_false_iff.
Qed.

(** X4: the three flags only decide between raising and warning.  A
    construction that succeeds under some configuration succeeds, with
    the same cruise and the same warnings, when nothing is required for
    the same path. *)
Theorem init_flags_only_raise fs config w (c : Cruise V) w' :
  init fs config w = (Ok c, w') ->
  init fs (mkCruiseConfig (path config) false false false) w = (Ok c, w').
Proof.
  intros Hinit.
  destruct (init_inversion _ _ _ Hinit)
    as (d & Hd & -> & _ & _ & _ & ->).
  rewrite init_succeeds with (d := d); try discriminate; [reflexivity|].
  exact Hd.
Qed.

(** X5: on a cruise constructed with require_school_boxes, the
    school-box query with an explicit category selection returns a table
    for every window; constructed with require_annotations as well, so
    does the query with categories=None, and [categories] returns a
    list. *)
Theorem init_required_then_queries_succeed fs config w (c : Cruise V) w' :
  init fs config w = (Ok c, w') ->
  require_school_boxes config = true ->
  (forall sp ep sr er (k : Z) (l : list Z),
      is_ok (get_school_boxes c sp ep sr er (SelInt k)) = true
      /\ is_ok (get_school_boxes c sp ep sr er (SelList l)) = true)
  /\ (require_annotations config = true ->
      is_ok (categories c) = true
      /\ forall sp ep sr er,
           is_ok (get_school_boxes c sp ep sr er SelNone) = true).
Proof.
  intros Hinit Hreq.
  destruct (init_availability _ _ _ Hinit)
    as (_ & _ & _ & _ & _ & Hann & _ & Hbox).
  specialize (Hbox Hreq). unfold school_boxes_available in Hbox.
  destruct (_school_box_df c) as [rows |] eqn:Hdf; [| discriminate].
  split.
  - intros sp ep sr er k l.
    rewrite !get_school_boxes_table with (rows := rows) by exact Hdf.
    split; reflexivity.
  - intros Hreq_ann. specialize (Hann Hreq_ann).
    unfold annotations_available in Hann.
    destruct (_annotations c) as [a |] eqn:Ha; [| discriminate].
    assert (Hcat : is_ok (categories c) = true).
    { unfold categories. now rewrite Ha. }
    split; [exact Hcat|]. intros sp ep sr er.
    rewrite get_school_boxes_table with (rows := rows) by exact Hdf.
    cbn [selected_categories].
    destruct (categories c); [reflexivity | discriminate].
Qed.

End LoadingProperties.

(** ** Paths *)

Lemma string_length_app (a b : string) :
  String.length (a ++ b) = (String.length a + String.length b)%nat.
Proof. induction a as [| ch a IH]; simpl; [reflexivity | now rewrite IH]. Qed.

Lemma substring_all (s : string) : substring 0 (String.length s) s = s.
Proof. induction s as [| ch s IH]; simpl; [reflexivity | now rewrite IH]. Qed.

Lemma substring_skip (a b : string) :
  substring (String.length a) (String.length b) (a ++ b) = b.
Proof. induction a as [| ch a IH]; simpl; [apply substring_all | exact IH]. Qed.

Lemma rfind_sep_none_get (s : string) :
  rfind_sep s = None <-> forall i, String.get i s <> Some "/"%char.
Proof.
  induction s as [| ch s IH]; simpl.
  - split; [intros _ i; destruct i; discriminate | reflexivity].
  - destruct (rfind_sep s) as [j |].
    + split; [discriminate|]. intros Hget. exfalso.
      destruct IH as [_ IH].
      assert (Hnone : Some j = None) by (apply IH; intros i; exact (Hget (S i))).
      discriminate Hnone.
    + unfold is_sep. destruct (Ascii.eqb_spec ch "/"%char) as [-> | Hne].
      * split; [discriminate|]. intros Hget. now specialize (Hget 0%nat).
      * split; [| reflexivity]. intros _ [| i]; simpl.
        -- intros [= Heq]. contradiction.
        -- now apply (proj1 IH).
Qed.

Lemma rfind_sep_after (a b : string) :
  rfind_sep b = None ->
  rfind_sep (a ++ String "/" b) = Some (String.length a).
Proof.
  intros Hb. induction a as [| ch a IH]; simpl.
  - now rewrite Hb.
  - now rewrite IH.
Qed.

Lemma rfind_sep_split (p : string) (i : nat) :
  rfind_sep p = Some i ->
  exists a b, p = (a ++ String "/" b)%string /\ String.length a = i
              /\ rfind_sep b = None.
Proof.
  revert i. induction p as [| ch p IH]; simpl; intros i Hi; [discriminate|].
  destruct (rfind_sep p) as [j |] eqn:Hp.
  - injection Hi as <-. destruct (IH j eq_refl) as (a & b & -> & Hlen & Hb).
    exists (String ch a), b. simpl. now rewrite Hlen.
  - unfold is_sep in Hi.
    destruct (Ascii.eqb_spec ch "/"%char) as [-> | Hne]; [| discriminate].
    injection Hi as <-. exists EmptyString, p. auto.
Qed.

Lemma split_tail_after (a b : string) :
  rfind_sep b = None ->
  os_path_split_tail (a ++ String "/" b) = b.
Proof.
  intros Hb. unfold os_path_split_tail. rewrite rfind_sep_after by exact Hb.
  rewrite string_length_app. cbn [String.length].
  replace (String.length a + S (String.length b) - S (String.length a))%nat
    with (String.length b) by lia.
  change (a ++ String "/" b)%string with (a ++ ("/" ++ b))%string.
  replace (a ++ ("/" ++ b))%string with ((a ++ "/") ++ b)%string.
  - replace (S (String.length a)) with (String.length (a ++ "/")).
    + apply substring_skip.
    + rewrite string_length_app. simpl. lia.
  - clear. induction a as [| ch a IH]; simpl; [reflexivity | now rewrite IH].
Qed.

Lemma split_tail_no_sep (p : string) :
  rfind_sep p = None -> os_path_split_tail p = p.
Proof.
  intros Hp. unfold os_path_split_tail. rewrite Hp, Nat.sub_0_r.
  apply substring_all.
Qed.

Lemma endswith_sep_app (a b : string) :
  b <> EmptyString -> endswith_sep (a ++ b) = endswith_sep b.
Proof.
  intros Hb. induction a as [| ch a IH]; simpl; [reflexivity|].
  destruct (a ++ b)%string eqn:Hab; [| exact IH].
  destruct a; simpl in Hab; [contradiction | discriminate].
Qed.

Lemma startswith_sep_rfind (s : string) :
  rfind_sep s = None -> startswith_sep s = false.
Proof.
  destruct s as [| ch s]; simpl; [reflexivity|].
  destruct (rfind_sep s); [discriminate|].
  destruct (is_sep ch); [discriminate | reflexivity].
Qed.

Lemma startswith_sep_app (a b : string) :
  startswith_sep a = false -> a <> EmptyString ->
  startswith_sep (a ++ b) = false.
Proof. destruct a; simpl; [contradiction | auto]. Qed.

Lemma string_app_assoc (a b c : string) :
  ((a ++ b) ++ c = a ++ (b ++ c))%string.
Proof. induction a as [| ch a IH]; simpl; [reflexivity | now rewrite IH]. Qed.

Lemma string_app_not_empty (a b : string) :
  b <> EmptyString -> (a ++ b =? "")%string = false.
Proof.
  intros Hb. destruct a as [| ch a]; simpl; [| reflexivity].
  destruct b; [contradiction | reflexivity].
Qed.

Lemma join_step_component (p b : string) :
  b <> EmptyString -> startswith_sep b = false -> endswith_sep b = false ->
  forall next, startswith_sep next = false ->
    join_step (p ++ b) next = (p ++ b ++ "/" ++ next)%string.
Proof.
  intros Hb _ Hend next Hnext. unfold join_step. rewrite Hnext.
  rewrite string_app_not_empty by exact Hb.
  rewrite endswith_sep_app by exact Hb. rewrite Hend. cbn [orb].
  apply string_app_assoc.
Qed.

Lemma read_name_no_sep (config : CruiseConfig) :
  rfind_sep (_read_name config) = None.
Proof.
  unfold _read_name. destruct (rfind_sep (path config)) as [i |] eqn:Hp.
  - destruct (rfind_sep_split _ Hp) as (a & b & -> & _ & Hb).
    now rewrite split_tail_after.
  - now rewrite split_tail_no_sep.
Qed.

(** X6: the name of a cruise is the part of the configured path after
    its last "/": the path is a head followed by the name, the head is
    empty or ends with "/", and the name contains no "/". *)
Theorem read_name_last_component (config : CruiseConfig) :
  exists head,
    path config = (head ++ _read_name config)%string
    /\ (head = EmptyString \/ endswith_sep head = true)
    /\ (forall i, String.get i (_read_name config) <> Some "/"%char).
Proof.
  pose proof (read_name_no_sep config) as Hname.
  unfold _read_name in *.
  destruct (rfind_sep (path config)) as [i |] eqn:Hp.
  - destruct (rfind_sep_split _ Hp) as (a & b & Heq & _ & Hb).
    rewrite Heq in *. rewrite split_tail_after in * by exact Hb.
    exists (a ++ "/")%string. split; [| split].
    + now rewrite string_app_assoc.
    + right. now rewrite endswith_sep_app.
    + now apply rfind_sep_none_get.
  - rewrite split_tail_no_sep in * by exact Hp.
    exists EmptyString. split; [reflexivity|]. split; [now left|].
    now apply rfind_sep_none_get.
Qed.

(** X7: a configured path that ends with "/" gives the empty name, and
    the file that is looked up for a suffix is then
    path ++ "ACOUSTIC/GRIDDED/_" ++ suffix. *)
Theorem read_name_trailing_separator (config : CruiseConfig)
    (p suffix : string) :
  path config = (p ++ "/")%string ->
  _read_name config = EmptyString
  /\ gridded_filepath config (_read_name config) suffix
     = (path config ++ "ACOUSTIC/GRIDDED/_" ++ suffix)%string.
Proof.
  intros Hpath.
  assert (Hname : _read_name config = EmptyString).
  { unfold _read_name. rewrite Hpath.
    apply split_tail_after. reflexivity. }
  split; [exact Hname|]. rewrite Hname.
  unfold gridded_filepath, os_path_join. cbn [fold_left].
  assert (Hfirst : join_step (path config) "ACOUSTIC"
                   = (path config ++ "ACOUSTIC")%string).
  { unfold join_step. cbn [startswith_sep is_sep Ascii.eqb Bool.eqb].
    rewrite Hpath, endswith_sep_app by discriminate.
    cbn. now rewrite orb_true_r. }
  rewrite Hfirst.
  rewrite join_step_component by (try discriminate; reflexivity).
  change (path config ++ "ACOUSTIC" ++ "/" ++ "GRIDDED")%string
    with (path config ++ "ACOUSTIC/GRIDDED")%string.
  rewrite join_step_component by (try discriminate; reflexivity).
  reflexivity.
Qed.

(** X8: for a configured path dir/base with a non-empty last component
    base, the name is base and the file looked up for a suffix is
    dir/base/ACOUSTIC/GRIDDED/base_suffix; the name never makes
    [os.path.join] restart from an absolute component. *)
Theorem gridded_filepath_layout (config : CruiseConfig)
    (dir base suffix : string) :
  path config = (dir ++ "/" ++ base)%string ->
  base <> EmptyString ->
  (forall i, String.get i base <> Some "/"%char) ->
  _read_name config = base
  /\ gridded_filepath config (_read_name config) suffix
     = (dir ++ "/" ++ base ++ "/ACOUSTIC/GRIDDED/" ++ base ++ "_"
        ++ suffix)%string.
Proof.
  intros Hpath Hbase Hnosep. apply rfind_sep_none_get in Hnosep.
  assert (Hname : _read_name config = base).
  { unfold _read_name. rewrite Hpath. now apply split_tail_after. }
  split; [exact Hname|]. rewrite Hname.
  assert (Hend : endswith_sep base = false).
  { clear - Hnosep. induction base as [| ch b IH]; [reflexivity|].
    simpl in Hnosep. destruct (rfind_sep b) eqn:Hb; [discriminate|].
    destruct (is_sep ch) eqn:Hch; [discriminate|].
    simpl. destruct b; [exact Hch | now apply IH]. }
  assert (Hstart : startswith_sep (base ++ "_" ++ suffix) = false).
  { apply startswith_sep_app; [now apply startswith_sep_rfind | exact Hbase]. }
  assert (Hplain : forall q next,
             (q =? "")%string = false -> endswith_sep q = false ->
             startswith_sep next = false ->
             join_step q next = (q ++ "/" ++ next)%string).
  { intros q next Hq Hq_end Hnext. unfold join_step.
    now rewrite Hnext, Hq, Hq_end. }
  unfold gridded_filepath, os_path_join. cbn [fold_left].
  rewrite Hpath.
  rewrite (Hplain _ "ACOUSTIC"%string).
  - rewrite (Hplain _ "GRIDDED"%string).
    + rewrite (Hplain _ (base ++ "_" ++ suffix)%string).
      * rewrite !string_app_assoc. reflexivity.
      * now apply string_app_not_empty.
      * now rewrite endswith_sep_app.
      * exact Hstart.
    + now apply string_app_not_empty.
    + now rewrite endswith_sep_app.
    + reflexivity.
  - now apply string_app_not_empty.
  - rewrite endswith_sep_app by discriminate.
    change ("/" ++ base)%string with (String "/" base). cbn [endswith_sep].
    destruct base; [contradiction | exact Hend].
  - reflexivity.
Qed.

(** ** More on slices and label selection *)

Lemma slice_indices_in_range (n : nat) (a b : Z) :
  0 <= a <= b -> b <= Z.of_nat n ->
  slice_indices (Some a) (Some b) n = seq (Z.to_nat a) (Z.to_nat (b - a)).
Proof.
  intros Hab Hb. unfold slice_indices, slice_bound.
  destruct (Z.ltb_spec a 0); [lia|]. destruct (Z.ltb_spec b 0); [lia|].
  f_equal; lia.
Qed.

Lemma slice_indices_from_end (n : nat) (k : Z) :
  0 < k <= Z.of_nat n ->
  slice_indices (Some (- k)) None n
  = slice_indices (Some (Z.of_nat n - k)) (Some (Z.of_nat n)) n.
Proof.
  intros Hk. unfold slice_indices, slice_bound.
  destruct (Z.ltb_spec (- k) 0); [| lia].
  destruct (Z.ltb_spec (Z.of_nat n - k) 0); [lia|].
  destruct (Z.ltb_spec (Z.of_nat n) 0); [lia|].
  f_equal; lia.
Qed.

Lemma slice_indices_before_start (n : nat) (a : Z) (stop : option Z) :
  a <= - Z.of_nat n ->
  slice_indices (Some a) stop n = slice_indices (Some 0) stop n.
Proof.
  intros Ha. unfold slice_indices.
  replace (slice_bound (Z.of_nat n) 0 (Some a))
    with (slice_bound (Z.of_nat n) 0 (Some 0)); [reflexivity|].
  unfold slice_bound. change (0 <? 0) with false. cbv iota.
  destruct (Z.ltb_spec a 0); lia.
Qed.

Lemma slice_indices_stop_clamped (n : nat) (start : option Z) (e : Z) :
  Z.of_nat n <= e ->
  slice_indices start (Some e) n = slice_indices start None n.
Proof.
  intros He. unfold slice_indices. f_equal. f_equal. f_equal.
  unfold slice_bound. destruct (Z.ltb_spec e 0); lia.
Qed.

Lemma slice_indices_concat (n : nat) (a b c : Z) :
  0 <= a <= b -> b <= c ->
  slice_indices (Some a) (Some c) n
  = slice_indices (Some a) (Some b) n ++ slice_indices (Some b) (Some c) n.
Proof.
  intros Hab Hbc. unfold slice_indices, slice_bound.
  destruct (Z.ltb_spec a 0); [lia|]. destruct (Z.ltb_spec b 0); [lia|].
  destruct (Z.ltb_spec c 0); [lia|].
  replace (Z.to_nat (Z.min c (Z.of_nat n) - Z.min a (Z.of_nat n)))
    with (Z.to_nat (Z.min b (Z.of_nat n) - Z.min a (Z.of_nat n))
          + Z.to_nat (Z.min c (Z.of_nat n) - Z.min b (Z.of_nat n)))%nat
    by lia.
  rewrite seq_app. f_equal. f_equal. lia.
Qed.

Lemma index_of_none (x : Z) (l : list Z) :
  index_of x l = None <-> ~ In x l.
Proof.
  induction l as [| y l IH]; simpl; [tauto|].
  destruct (Z.eqb_spec x y) as [-> | Hne].
  - split; [discriminate | intros H; exfalso; apply H; now left].
  - destruct (index_of x l) as [i |]; simpl.
    + split; [discriminate|]. intros H. exfalso. apply H. right.
      destruct (in_dec Z.eq_dec x l) as [Hin | Hnin]; [assumption|].
      apply IH in Hnin. discriminate.
    + split; [| reflexivity]. intros _ [Heq | Hin]; [congruence|].
      now apply IH.
Qed.

Lemma nth_error_absent (x : Z) (l : list Z) :
  ~ In x l -> forall j, nth_error l j <> Some x.
Proof. intros Hx j Hj. apply Hx. eapply nth_error_In, Hj. Qed.

(** On a coordinate without repeated label a single label is located at
    its position, and the axis is dropped. *)
Lemma sel_label_NoDup (coord : list Z) (x : Z) :
  NoDup coord ->
  sel_label coord x
  = match index_of x coord with
    | Some i => Ok (One i)
    | None => Raise (KeyError x)
    end.
Proof.
  intros Hnd. destruct (index_of x coord) as [i |] eqn:Hi.
  - apply index_of_nth_error in Hi.
    apply sel_label_single; [exact Hi|].
    now apply NoDup_nth_error_only.
  - apply index_of_none in Hi. unfold sel_label.
    now rewrite positions_of_absent by now apply nth_error_absent.
Qed.

Lemma positions_of_present (x : Z) (l : list Z) (start : nat) :
  In x l -> positions_of x l start <> [].
Proof.
  revert start. induction l as [| y l IH]; intros start Hx; simpl;
    [contradiction|].
  destruct (Z.eqb_spec x y) as [-> | Hne]; [discriminate|].
  destruct Hx as [-> | Hx]; [contradiction|]. now apply IH.
Qed.

Lemma sel_label_is_ok (coord : list Z) (x : Z) :
  is_ok (sel_label coord x) = true <-> In x coord.
Proof.
  unfold sel_label. split.
  - intros Hok. destruct (in_dec Z.eq_dec x coord) as [Hin | Hnin];
      [assumption|].
    rewrite positions_of_absent in Hok by now apply nth_error_absent.
    discriminate.
  - intros Hin. pose proof (@positions_of_present x coord 0%nat Hin) as Hne.
    destruct (positions_of x coord 0) as [| i [| j js]];
      [contradiction | reflexivity | reflexivity].
Qed.

(** A single label that is located at several positions: the coordinate
    repeats it. *)
Lemma sel_label_many (coord : list Z) (x : Z) (js : list nat) :
  sel_label coord x = Ok (Many js) ->
  (2 <= length js)%nat /\ ~ NoDup coord.
Proof.
  intros Hsel. split.
  - unfold sel_label in Hsel.
    destruct (positions_of x coord 0) as [| i [| j rest]];
      try discriminate.
    injection Hsel as <-. simpl. lia.
  - intros Hnd. rewrite (sel_label_NoDup x Hnd) in Hsel.
    destruct (index_of x coord); discriminate.
Qed.

Lemma get_indexer_is_ok (coord labels : list Z) :
  is_ok (get_indexer coord labels) = true
  <-> forall f, In f labels -> In f coord.
Proof.
  induction labels as [| x rest IH]; simpl.
  - split; [intros _ f [] | reflexivity].
  - destruct (index_of x coord) as [i |] eqn:Hi.
    + destruct (get_indexer coord rest) as [js | e]; cbn [bind is_ok] in *.
      * split; [| reflexivity]. intros _ f [Heq | Hf].
        -- subst f.
           destruct (in_dec Z.eq_dec x coord) as [Hin | Hnin]; [assumption|].
           apply index_of_none in Hnin. congruence.
        -- now apply (proj1 IH).
      * split; [discriminate|]. intros Hall.
        apply IH. intros f Hf. apply Hall. now right.
    + cbn [is_ok]. split; [discriminate|]. intros Hall.
      apply index_of_none in Hi. exfalso. apply Hi, Hall. now left.
Qed.

Lemma sel_labels_is_ok (coord labels : list Z) :
  is_ok (sel_labels coord labels) = true
  <-> NoDup coord /\ forall f, In f labels -> In f coord.
Proof.
  unfold sel_labels. destruct (is_unique coord) eqn:Hu.
  - apply is_unique_NoDup in Hu. rewrite get_indexer_is_ok. tauto.
  - split; [discriminate|]. intros [Hnd _].
    apply is_unique_NoDup in Hnd. congruence.
Qed.

Lemma get_indexer_raise (coord labels : list Z) (e : exn) :
  get_indexer coord labels = Raise e ->
  exists k, e = KeyError k /\ In k labels /\ ~ In k coord.
Proof.
  induction labels as [| x rest IH]; simpl; [discriminate|].
  destruct (index_of x coord) as [i |] eqn:Hi.
  - destruct (get_indexer coord rest) as [js | e']; cbn [bind];
      [discriminate|].
    intros [= <-]. destruct (IH eq_refl) as (k & -> & Hk & Hnk).
    exists k. auto.
  - intros [= <-]. exists x. split; [reflexivity|]. split; [now left|].
    now apply index_of_none.
Qed.

Lemma sel_labels_raise (coord labels : list Z) (e : exn) :
  sel_labels coord labels = Raise e ->
  (e = InvalidIndexError /\ ~ NoDup coord)
  \/ (exists k, e = KeyError k /\ In k labels /\ ~ In k coord).
Proof.
  unfold sel_labels. destruct (is_unique coord) eqn:Hu.
  - intros Hr. right. now apply get_indexer_raise.
  - intros [= <-]. left. split; [reflexivity|]. intros Hnd.
    apply is_unique_NoDup in Hnd. congruence.
Qed.

Lemma sel_labels_nth (coord labels : list Z) (js : list nat) (j : nat)
    (x : Z) :
  sel_labels coord labels = Ok js -> nth_error labels j = Some x ->
  exists i, nth_error js j = Some i /\ sel_label coord x = Ok (One i).
Proof.
  unfold sel_labels. destruct (is_unique coord) eqn:Hu; [| discriminate].
  apply is_unique_NoDup in Hu.
  revert js j. induction labels as [| y rest IH]; intros js j; simpl.
  - destruct j; discriminate.
  - destruct (index_of y coord) as [i |] eqn:Hy; [| discriminate].
    destruct (get_indexer coord rest) as [js' |]; cbn [bind]; [| discriminate].
    intros [= <-]. destruct j as [| j]; simpl.
    + intros [= <-]. exists i. split; [reflexivity|].
      now rewrite (sel_label_NoDup y Hu), Hy.
    + intros Hj. now apply IH.
Qed.

Section SliceProperties.

Variable V : Type.
Implicit Types (c : Cruise V) (d : Dataset V).

Lemma isel_shape d (pings ranges : list nat) (js : list nat) :
  has_shape (map (isel d pings ranges) js) (length js) (length pings)
    (length ranges).
Proof.
  unfold has_shape. split; [apply length_map|].
  apply Forall_forall. intros slab Hslab.
  apply in_map_iff in Hslab. destruct Hslab as (i & <- & _).
  split; [apply length_map | apply isel_range_length].
Qed.

(** X9: [get_sv_slice] succeeds, whatever the window, exactly in these
    cases: for frequencies=None when no frequency label is repeated; for
    an int when it is a frequency of the survey; for a list when no
    frequency label is repeated and every member is a frequency of the
    survey.  When it raises, the exception is [InvalidIndexError], for a
    None or list selection on a frequency axis that repeats a label, or
    a [KeyError] for a requested frequency the survey does not have. *)
Theorem get_sv_slice_succeeds_iff c sp ep sr er :
  (is_ok (get_sv_slice c sp ep sr er SelNone) = true
   <-> NoDup (frequencies c))
  /\ (forall f, is_ok (get_sv_slice c sp ep sr er (SelInt f)) = true
                <-> In f (frequencies c))
  /\ (forall l, is_ok (get_sv_slice c sp ep sr er (SelList l)) = true
                <-> NoDup (frequencies c)
                    /\ forall f, In f l -> In f (frequencies c))
  /\ (forall freqs e,
        get_sv_slice c sp ep sr er freqs = Raise e ->
        (e = InvalidIndexError /\ ~ NoDup (frequencies c)
         /\ forall k, freqs <> SelInt k)
        \/ exists k, e = KeyError k /\ ~ In k (frequencies c)
                     /\ (freqs = SelInt k
                         \/ exists l, freqs = SelList l /\ In k l)).
Proof.
  assert (Hlist : forall l,
    is_ok (get_sv_slice c sp ep sr er (SelList l)) = true
    <-> NoDup (frequencies c) /\ forall f, In f l -> In f (frequencies c)).
  { intros l. rewrite <- sel_labels_is_ok.
    unfold get_sv_slice, sel_isel, read_block, frequencies.
    destruct (sel_labels (coord (_data c)) l); reflexivity. }
  split; [| split; [| split]].
  - change (get_sv_slice c sp ep sr er SelNone)
      with (get_sv_slice c sp ep sr er (SelList (frequencies c))).
    rewrite Hlist. tauto.
  - intros f. rewrite <- sel_label_is_ok.
    unfold get_sv_slice, sel_isel, read_block, frequencies.
    destruct (sel_label (coord (_data c)) f) as [[i | js] |]; reflexivity.
  - exact Hlist.
  - intros freqs e. unfold get_sv_slice, sel_isel, read_block, frequencies.
    destruct freqs as [| f | l].
    + destruct (sel_labels (coord (_data c)) (coord (_data c)))
        as [js | e'] eqn:Hsel; cbn [bind]; [discriminate|].
      intros [= <-].
      destruct (sel_labels_raise _ _ Hsel)
        as [[-> Hnd] | (k & _ & Hk & Hnk)]; [| contradiction].
      left. split; [reflexivity|]. split; [exact Hnd | discriminate].
    + destruct (sel_label (coord (_data c)) f) as [[i | js] | e'] eqn:Hf;
        cbn [bind]; try discriminate.
      intros [= <-]. right. exists f.
      assert (Hnin : ~ In f (coord (_data c))).
      { intros Hin. apply sel_label_is_ok in Hin. rewrite Hf in Hin.
        discriminate. }
      unfold sel_label in Hf.
      destruct (positions_of f (coord (_data c)) 0) as [| i [| j js]];
        try discriminate.
      injection Hf as <-. split; [reflexivity|]. split; [exact Hnin|].
      now left.
    + destruct (sel_labels (coord (_data c)) l) as [js | e'] eqn:Hsel;
        cbn [bind]; [discriminate|].
      intros [= <-].
      destruct (sel_labels_raise _ _ Hsel)
        as [[-> Hnd] | (k & -> & Hk & Hnk)].
      * left. split; [reflexivity|]. split; [exact Hnd | discriminate].
      * right. exists k. split; [reflexivity|]. split; [assumption|].
        right. exists l. auto.
Qed.

(** X10: on a survey whose frequency labels are pairwise distinct, for
    a list of frequencies of the survey and bounds with
    0 <= start_ping <= end_ping <= num_pings and
    0 <= start_range <= end_range <= num_ranges, [get_sv_slice] returns
    a 3-axis array of shape
    (len(frequencies), end_ping - start_ping, end_range - start_range). *)
Theorem get_sv_slice_shape c (sp ep sr er : Z) (l : list Z) :
  NoDup (frequencies c) ->
  (forall f, In f l -> In f (frequencies c)) ->
  0 <= sp <= ep -> ep <= num_pings c ->
  0 <= sr <= er -> er <= num_ranges c ->
  exists a,
    get_sv_slice c (Some sp) (Some ep) (Some sr) (Some er) (SelList l)
    = Ok (DA3 a)
    /\ has_shape a (length l) (Z.to_nat (ep - sp)) (Z.to_nat (er - sr)).
Proof.
  intros Hnd Hvalid Hp Hpn Hr Hrn.
  destruct (sel_labels_ok l Hnd Hvalid) as (js & Hjs & Hlen & _).
  unfold get_sv_slice, sel_isel, read_block. cbn [or_default].
  unfold frequencies in Hjs. rewrite Hjs. cbn [bind].
  eexists. split; [reflexivity|].
  rewrite <- Hlen.
  replace (Z.to_nat (ep - sp))
    with (length (slice_indices (Some sp) (Some ep)
                    (sizes_ping_time (_data c)))).
  - replace (Z.to_nat (er - sr))
      with (length (slice_indices (Some sr) (Some er)
                      (sizes_range (_data c)))).
    + apply isel_shape.
    + rewrite slice_indices_in_range by assumption. apply length_seq.
  - rewrite slice_indices_in_range by assumption. apply length_seq.
Qed.

(** X11: a negative start_ping is not a position before the survey: it
    counts from the end.  For 0 < k <= num_pings,
    get_sv_slice(-k, None) is the slice of the last k pings, and a start
    at or below -num_pings is the start 0. *)
Theorem get_sv_slice_negative_start c (k : Z) (ep : option Z) sr er freqs :
  (0 < k <= num_pings c ->
   get_sv_slice c (Some (- k)) None sr er freqs
   = get_sv_slice c (Some (num_pings c - k)) (Some (num_pings c)) sr er
       freqs)
  /\ (num_pings c <= k ->
      get_sv_slice c (Some (- k)) ep sr er freqs
      = get_sv_slice c (Some 0) ep sr er freqs).
Proof.
  unfold num_pings, get_sv_slice, sel_isel. split; intros Hk.
  - now rewrite slice_indices_from_end.
  - now rewrite slice_indices_before_start by lia.
Qed.

(** X12: an end bound at or past the extent is clamped: end_ping >=
    num_pings gives the slice of end_ping=None, and end_range >=
    num_ranges the slice of end_range=None. *)
Theorem get_sv_slice_end_clamped c sp sr (e : Z) (ep er : option Z) freqs :
  (num_pings c <= e ->
   get_sv_slice c sp (Some e) sr er freqs
   = get_sv_slice c sp None sr er freqs)
  /\ (num_ranges c <= e ->
      get_sv_slice c sp ep sr (Some e) freqs
      = get_sv_slice c sp ep sr None freqs).
Proof.
  unfold num_pings, num_ranges, get_sv_slice, sel_isel. cbn [or_default].
  split; intros He.
  - now rewrite slice_indices_stop_clamped.
  - rewrite slice_indices_stop_clamped by exact He.
    rewrite (@slice_indices_stop_clamped (sizes_range (_data c)) _
               (Z.of_nat (sizes_range (_data c)) + 1)) by lia.
    reflexivity.
Qed.

(** X13: with in-range bounds and a single int frequency that occurs
    once on the frequency axis, at position i, [get_sv_slice] returns a
    2-axis array with end_ping - start_ping rows whose entry (j, k) is
    the backscatter value at frequency i, ping start_ping + j and range
    start_range + k. *)
Theorem get_sv_slice_content c (sp ep sr er f : Z) (i : nat) :
  nth_error (frequencies c) i = Some f ->
  (forall j, nth_error (frequencies c) j = Some f -> j = i) ->
  0 <= sp <= ep -> ep <= num_pings c ->
  0 <= sr <= er -> er <= num_ranges c ->
  exists a,
    get_sv_slice c (Some sp) (Some ep) (Some sr) (Some er) (SelInt f)
    = Ok (DA2 a)
    /\ length a = Z.to_nat (ep - sp)
    /\ (forall j k : nat,
          Z.of_nat j < ep - sp -> Z.of_nat k < er - sr ->
          exists row,
            nth_error a j = Some row
            /\ length row = Z.to_nat (er - sr)
            /\ nth_error row k
               = Some (values (_data c) i (Z.to_nat sp + j)
                         (Z.to_nat sr + k))).
Proof.
  intros Hi Honly Hp Hpn Hr Hrn.
  unfold get_sv_slice, sel_isel, read_block. cbn [or_default].
  unfold frequencies in Hi, Honly.
  rewrite (@sel_label_single (coord (_data c)) f i Hi Honly). cbn [bind].
  unfold num_pings in Hpn. unfold num_ranges in Hrn.
  rewrite !slice_indices_in_range by assumption.
  eexists. split; [reflexivity|]. unfold isel.
  split; [now rewrite length_map, length_seq|].
  intros j k Hj Hk. eexists. split; [| split].
  - rewrite nth_error_map, nth_error_seq.
    destruct (Nat.ltb_spec j (Z.to_nat (ep - sp))); [| lia]. reflexivity.
  - now rewrite length_map, length_seq.
  - rewrite nth_error_map, nth_error_seq.
    destruct (Nat.ltb_spec k (Z.to_nat (er - sr))); [| lia]. reflexivity.
Qed.

(** X14: on a frequency axis without repeated label, selecting with the
    int f and with the list [f] read the same cells: the int drops the
    frequency axis, the list keeps it with length one, and both raise
    the same exception for an unknown f.  On any axis, a list call that
    returns the one-slab array [a] means the int call returns a; an int
    call returns a 3-axis array only for a repeated label, with at
    least two slabs, and the list call then raises
    [InvalidIndexError]; the list call never returns a 2-axis array. *)
Theorem get_sv_slice_int_vs_singleton c sp ep sr er (f : Z) :
  (NoDup (frequencies c) ->
   (forall a, get_sv_slice c sp ep sr er (SelInt f) = Ok (DA2 a)
              <-> get_sv_slice c sp ep sr er (SelList [f]) = Ok (DA3 [a]))
   /\ (forall e, get_sv_slice c sp ep sr er (SelInt f) = Raise e
                 <-> get_sv_slice c sp ep sr er (SelList [f]) = Raise e))
  /\ (forall a, get_sv_slice c sp ep sr er (SelList [f]) = Ok (DA3 [a]) ->
                get_sv_slice c sp ep sr er (SelInt f) = Ok (DA2 a))
  /\ (forall arr, get_sv_slice c sp ep sr er (SelInt f) = Ok (DA3 arr) ->
                  (2 <= length arr)%nat
                  /\ get_sv_slice c sp ep sr er (SelList [f])
                     = Raise InvalidIndexError)
  /\ (forall a, get_sv_slice c sp ep sr er (SelList [f]) <> Ok (DA2 a)).
Proof.
  assert (Hunique : NoDup (frequencies c) ->
    (forall a, get_sv_slice c sp ep sr er (SelInt f) = Ok (DA2 a)
               <-> get_sv_slice c sp ep sr er (SelList [f]) = Ok (DA3 [a]))
    /\ (forall e, get_sv_slice c sp ep sr er (SelInt f) = Raise e
                  <-> get_sv_slice c sp ep sr er (SelList [f]) = Raise e)).
  { intros Hnd. unfold get_sv_slice, sel_isel, read_block, sel_labels.
    unfold frequencies in Hnd.
    rewrite (sel_label_NoDup f Hnd), (proj2 (is_unique_NoDup _) Hnd).
    cbn [get_indexer].
    destruct (index_of f (coord (_data c))) as [i |]; cbn [bind map].
    - repeat split; try discriminate.
      + intros [= <-]. reflexivity.
      + intros [= <-]. reflexivity.
    - repeat split; try discriminate; auto. }
  split; [exact Hunique|]. split; [| split].
  - intros a Hlist.
    destruct (in_dec Z.eq_dec 0 [0]) as [_ | Hn]; [| exfalso; apply Hn; now left].
    assert (Hok : is_ok (get_sv_slice c sp ep sr er (SelList [f])) = true)
      by now rewrite Hlist.
    unfold get_sv_slice, sel_isel, read_block in Hok.
    destruct (sel_labels (coord (_data c)) [f]) as [js |] eqn:Hsel;
      [| discriminate].
    assert (Hnd : NoDup (frequencies c)).
    { apply (proj1 (sel_labels_is_ok (coord (_data c)) [f])).
      now rewrite Hsel. }
    now apply (proj1 (Hunique Hnd)).
  - intros arr Hint. unfold get_sv_slice, sel_isel, read_block in *.
    destruct (sel_label (coord (_data c)) f) as [[i | js] |] eqn:Hf;
      cbn [bind] in Hint; try discriminate.
    injection Hint as <-. destruct (sel_label_many _ _ Hf) as [Hlen Hnd].
    split; [now rewrite length_map|].
    now rewrite sel_labels_repeated.
  - intros a. unfold get_sv_slice, sel_isel, read_block.
    destruct (sel_labels (coord (_data c)) [f]); cbn [bind]; discriminate.
Qed.

(** X15: slices of adjacent ping windows concatenate: for
    0 <= a <= b <= c the rows of the slice [a, b) followed by the rows of
    the slice [b, c) are the rows of the slice [a, c), for the same range
    window and frequency, also when the windows run past the end of the
    survey. *)
Theorem get_sv_slice_adjacent_pings c (a b e : Z) sr er (f : Z)
    (rows_ab rows_be : list (list V)) :
  0 <= a <= b -> b <= e ->
  get_sv_slice c (Some a) (Some b) sr er (SelInt f) = Ok (DA2 rows_ab) ->
  get_sv_slice c (Some b) (Some e) sr er (SelInt f) = Ok (DA2 rows_be) ->
  get_sv_slice c (Some a) (Some e) sr er (SelInt f)
  = Ok (DA2 (rows_ab ++ rows_be)).
Proof.
  intros Hab Hbe. unfold get_sv_slice, sel_isel, read_block.
  destruct (sel_label (coord (_data c)) f) as [[i | js] |]; cbn [bind];
    try discriminate.
  intros [= <-] [= <-].
  rewrite (slice_indices_concat _ Hab Hbe).
  unfold isel. now rewrite map_app.
Qed.

(** X16: on a survey without annotations [get_annotation_slice] raises
    for every argument: the [FileNotFoundError] of [categories] when
    categories is None, and otherwise the [AttributeError] of reading
    [.sel] on the missing volume. *)
Theorem get_annotation_slice_unavailable c sp ep sr er :
  annotations_available c = false ->
  get_annotation_slice c sp ep sr er SelNone
  = Raise (FileNotFoundError
             ("Annotations are not available for cruise " ++ name c))
  /\ (forall k, get_annotation_slice c sp ep sr er (SelInt k)
                = Raise (AttributeError "sel"))
  /\ (forall l, get_annotation_slice c sp ep sr er (SelList l)
                = Raise (AttributeError "sel")).
Proof.
  unfold annotations_available, get_annotation_slice, categories.
  destruct (_annotations c); [discriminate|]. intros _.
  repeat split.
Qed.

(** X17: on a survey with annotations whose category labels are
    pairwise distinct, [get_annotation_slice] with categories=None never
    raises: it returns a 3-axis array with one slab per category of
    [categories()], so none for the sentinel -1, in ascending order of
    category: slab j is the slice the call returns for the single
    category at position j of [categories()].  When the category axis
    repeats a label, the call with categories=None raises
    [InvalidIndexError]. *)
Theorem get_annotation_slice_default c (a : Dataset V) sp ep sr er :
  _annotations c = Some a ->
  (NoDup (coord a) ->
   exists cl arr,
     categories c = Ok cl
     /\ get_annotation_slice c sp ep sr er SelNone = Ok (DA3 arr)
     /\ length arr = length cl
     /\ (forall (j : nat) (k : Z),
           nth_error cl j = Some k ->
           exists slab,
             nth_error arr j = Some slab
             /\ get_annotation_slice c sp ep sr er (SelInt k)
                = Ok (DA2 slab)))
  /\ (~ NoDup (coord a) ->
      get_annotation_slice c sp ep sr er SelNone = Raise InvalidIndexError).
Proof.
  intros Ha.
  destruct (categories c) as [cl | e] eqn:Hcl.
  2:{ unfold categories in Hcl. rewrite Ha in Hcl. discriminate. }
  split.
  - intros Hnd.
    assert (Hvalid : forall x, In x cl -> In x (coord a)).
    { unfold categories in Hcl. rewrite Ha in Hcl. injection Hcl as <-.
      intros x Hx.
      apply (Permutation_in _ (Permutation_sym (sorted_perm _))) in Hx.
      now apply filter_In in Hx. }
    destruct (sel_labels_ok cl Hnd Hvalid) as (js & Hjs & Hlen & _).
    exists cl. eexists. split; [reflexivity|].
    unfold get_annotation_slice, sel_isel, read_block.
    rewrite Hcl, Ha. cbn [bind].
    rewrite Hjs. cbn [bind]. split; [reflexivity|].
    split; [now rewrite length_map|].
    intros j k Hk.
    destruct (sel_labels_nth _ _ _ Hjs Hk) as (i & Hi & Hsel).
    eexists. split.
    + rewrite nth_error_map, Hi. reflexivity.
    + rewrite Hsel. reflexivity.
  - intros Hnd. unfold get_annotation_slice, sel_isel, read_block.
    rewrite Hcl, Ha. cbn [bind]. now rewrite sel_labels_repeated.
Qed.

End SliceProperties.

(** ** More on the school-box query *)

Lemma filter_disjoint_perm {A : Type} (p q : A -> bool) (l : list A) :
  (forall x, In x l -> p x = true -> q x = false) ->
  Permutation (filter (fun x => p x || q x) l) (filter p l ++ filter q l).
Proof.
  induction l as [| x l IH]; intros Hdisj; simpl; [constructor|].
  assert (IH' : Permutation (filter (fun x => p x || q x) l)
                  (filter p l ++ filter q l)).
  { apply IH. intros y Hy. apply Hdisj. now right. }
  destruct (p x) eqn:Hp; simpl.
  - rewrite (Hdisj x (or_introl eq_refl) Hp). now constructor.
  - destruct (q x); [| exact IH'].
    now apply Permutation_cons_app.
Qed.

Lemma filter_none {A : Type} (p : A -> bool) (l : list A) :
  (forall x, In x l -> p x = false) -> filter p l = [].
Proof.
  induction l as [| x l IH]; intros Hp; simpl; [reflexivity|].
  rewrite (Hp x) by now left. apply IH. intros y Hy. apply Hp. now right.
Qed.

Lemma sorted_NoDup (l : list Z) : NoDup l -> NoDup (sorted l).
Proof. intros Hl. exact (Permutation_NoDup (sorted_perm l) Hl). Qed.

Section SchoolBoxProperties.

Variable V : Type.
Implicit Types (c : Cruise V) (rows : DataFrame) (cats : selector).

(** A query that returns had a table to read. *)
Lemma get_school_boxes_ok_table c sp ep sr er cats (out : DataFrame) :
  get_school_boxes c sp ep sr er cats = Ok out ->
  exists rows cl,
    _school_box_df c = Some rows
    /\ selected_categories c cats = Ok cl
    /\ out = filter (fun r => in_window sp ep sr er r
                              && isin cl (category r)) rows.
Proof.
  intros Hout. destruct (_school_box_df c) as [rows |] eqn:Hdf.
  - rewrite get_school_boxes_table with (rows := rows) in Hout by exact Hdf.
    destruct (selected_categories c cats) as [cl |]; cbn [bind] in Hout;
      [| discriminate].
    injection Hout as <-. exists rows, cl. auto.
  - destruct (get_school_boxes_no_table c sp ep sr er cats Hdf)
      as [H | (_ & _ & H)]; rewrite H in Hout; discriminate.
Qed.

(** X18: an empty category list is not the default: on a survey with a
    school-box table, categories=[] returns the empty table for every
    window, where categories=None selects every catalogued category. *)
Theorem get_school_boxes_empty_selection c rows sp ep sr er :
  _school_box_df c = Some rows ->
  get_school_boxes c sp ep sr er (SelList []) = Ok [].
Proof.
  intros Hdf. rewrite get_school_boxes_table with (rows := rows) by exact Hdf.
  cbn [selected_categories bind]. f_equal. apply filter_none.
  intros r _. apply andb_false_r.
Qed.

(** X19: the query with categories=None never returns a box labelled
    with the sentinel -1, nor a box whose category is not a label of the
    annotation volume, whatever the table holds. *)
Theorem get_school_boxes_default_excludes_sentinel c sp ep sr er
    (out : DataFrame) :
  get_school_boxes c sp ep sr er SelNone = Ok out ->
  exists a,
    _annotations c = Some a
    /\ forall r, In r out -> category r <> -1 /\ In (category r) (coord a).
Proof.
  intros Hout.
  destruct (get_school_boxes_ok_table _ _ _ _ _ _ Hout)
    as (rows & cl & _ & Hcl & ->).
  cbn [selected_categories] in Hcl. unfold categories in Hcl.
  destruct (_annotations c) as [a |]; [| discriminate].
  injection Hcl as <-. exists a. split; [reflexivity|].
  intros r Hr. apply filter_In in Hr. destruct Hr as [_ Hr].
  apply andb_true_iff in Hr. destruct Hr as [_ Hr].
  apply isin_In in Hr.
  apply (Permutation_in _ (Permutation_sym (sorted_perm _))) in Hr.
  apply filter_In in Hr. destruct Hr as [Hin Hne].
  split; [| exact Hin]. now apply negb_true_iff, Z.eqb_neq in Hne.
Qed.

(** X20: the query is monotone in the window: every box returned for a
    window is returned for any window that contains it, and for the
    query with no bound at all, with the same category selection. *)
Theorem get_school_boxes_window_monotone c (sp ep sr er sp' ep' sr' er' : Z)
    cats (out : DataFrame) :
  sp' <= sp -> ep <= ep' -> sr' <= sr -> er <= er' ->
  get_school_boxes c (Some sp) (Some ep) (Some sr) (Some er) cats = Ok out ->
  (exists out',
     get_school_boxes c (Some sp') (Some ep') (Some sr') (Some er') cats
     = Ok out'
     /\ incl out out')
  /\ (exists out_all,
        get_school_boxes c None None None None cats = Ok out_all
        /\ incl out out_all).
Proof.
  intros Hsp Hep Hsr Her Hout.
  destruct (get_school_boxes_ok_table _ _ _ _ _ _ Hout)
    as (rows & cl & Hdf & Hcl & ->).
  rewrite !get_school_boxes_table with (rows := rows) by exact Hdf.
  rewrite Hcl. cbn [bind].
  split; eexists; (split; [reflexivity|]); intros r Hr;
    apply filter_In in Hr; destruct Hr as [Hr Hpass];
    apply filter_In; (split; [exact Hr|]);
    apply andb_true_iff in Hpass; destruct Hpass as [Hwin Hcat];
    rewrite Hcat, andb_true_r;
    unfold in_window, bound_ok in *; [| reflexivity].
  rewrite !andb_true_iff in *.
  rewrite !Z.geb_le, !Z.ltb_lt in *. lia.
Qed.

(** X21: no box is lost between adjacent ping windows.  For a <= b <= e,
    the results for [a, b) and [b, e) are contained in the result for
    [a, e); every box of the latter whose startpingindex is at most its
    endpingindex is in one of the two; and a box that straddles b
    (startpingindex < b <= endpingindex) is in both. *)
Theorem get_school_boxes_adjacent_windows c (a b e : Z) sr er cats
    (out : DataFrame) :
  a <= b -> b <= e ->
  get_school_boxes c (Some a) (Some e) sr er cats = Ok out ->
  exists out_ab out_be,
    get_school_boxes c (Some a) (Some b) sr er cats = Ok out_ab
    /\ get_school_boxes c (Some b) (Some e) sr er cats = Ok out_be
    /\ incl out_ab out /\ incl out_be out
    /\ (forall r, In r out -> startpingindex r <= endpingindex r ->
          In r out_ab \/ In r out_be)
    /\ (forall r, In r out -> startpingindex r < b <= endpingindex r ->
          In r out_ab /\ In r out_be).
Proof.
  intros Hab Hbe Hout.
  destruct (get_school_boxes_ok_table _ _ _ _ _ _ Hout)
    as (rows & cl & Hdf & Hcl & ->).
  rewrite !get_school_boxes_table with (rows := rows) by exact Hdf.
  rewrite Hcl. cbn [bind].
  do 2 eexists. split; [reflexivity|]. split; [reflexivity|].
  assert (Hin : forall x y r,
    In r (filter (fun r => in_window (Some x) (Some y) sr er r
                           && isin cl (category r)) rows)
    <-> In r rows /\ endpingindex r >= x /\ startpingindex r < y
        /\ bound_ok sr (fun b => lowerdeptindex r >=? b) = true
        /\ bound_ok er (fun b => upperdeptindex r <? b) = true
        /\ isin cl (category r) = true).
  { intros x y r. rewrite filter_In. unfold in_window.
    cbn [bound_ok]. rewrite !andb_true_iff, Z.geb_le, Z.ltb_lt.
    intuition lia. }
  split; [| split; [| split]].
  - intros r Hr. apply Hin. apply Hin in Hr. intuition lia.
  - intros r Hr. apply Hin. apply Hin in Hr. intuition lia.
  - intros r Hr Hwf. apply Hin in Hr.
    destruct (Z.lt_ge_cases (startpingindex r) b).
    + left. apply Hin. intuition lia.
    + right. apply Hin. intuition lia.
  - intros r Hr Hstraddle. apply Hin in Hr.
    split; apply Hin; intuition lia.
Qed.

(** X22: when the labels of the category axis are distinct, the result
    of the query with categories=None is, up to the order of the rows,
    the concatenation over the categories of [categories()] of the
    results for each single category; the numbers of rows add up. *)
Theorem get_school_boxes_by_category c (a : Dataset V) rows sp ep sr er :
  _school_box_df c = Some rows ->
  _annotations c = Some a ->
  NoDup (coord a) ->
  exists catalog out_all outs,
    categories c = Ok catalog
    /\ get_school_boxes c sp ep sr er SelNone = Ok out_all
    /\ Forall2 (fun k out_k =>
                  get_school_boxes c sp ep sr er (SelInt k) = Ok out_k)
         catalog outs
    /\ Permutation out_all (concat outs)
    /\ length out_all = list_sum (map (@length Row) outs).
Proof.
  intros Hdf Ha Hnodup.
  assert (Hcat : categories c
                 = Ok (sorted (filter (fun cat => negb (cat =? -1))
                                 (coord a)))).
  { unfold categories. now rewrite Ha. }
  assert (Hnd : NoDup (sorted (filter (fun cat => negb (cat =? -1))
                                 (coord a)))).
  { apply sorted_NoDup, NoDup_filter, Hnodup. }
  set (catalog := sorted _) in *. clearbody catalog.
  set (per k := filter (fun r => in_window sp ep sr er r
                                 && isin [k] (category r)) rows).
  exists catalog. eexists. exists (map per catalog).
  split; [exact Hcat|].
  rewrite get_school_boxes_table with (rows := rows) by exact Hdf.
  cbn [selected_categories]. rewrite Hcat. cbn [bind].
  split; [reflexivity|].
  assert (Hperm : Permutation
            (filter (fun r => in_window sp ep sr er r
                              && isin catalog (category r)) rows)
            (concat (map per catalog))).
  { clear Hcat. induction catalog as [| k cl IH]; simpl.
    - rewrite filter_none; [constructor|]. intros r _. apply andb_false_r.
    - inversion Hnd as [| ? ? Hk Hnd']; subst.
      eapply perm_trans; [| apply Permutation_app_head, IH, Hnd'].
      unfold per at 1.
      erewrite filter_ext; [apply filter_disjoint_perm|].
      + intros r _ Hp. cbv beta in Hp. apply andb_true_iff in Hp.
        destruct Hp as [_ Hp]. rewrite isin_singleton in Hp.
        apply Z.eqb_eq in Hp.
        destruct (isin cl (category r)) eqn:Hcl; [| apply andb_false_r].
        apply isin_In in Hcl. rewrite Hp in Hcl. contradiction.
      + intros r. cbv beta. rewrite isin_singleton. unfold isin at 1.
        cbn [existsb]. fold (isin cl (category r)).
        now rewrite andb_orb_distrib_r. }
  split; [| split; [exact Hperm|]].
  - clear Hcat Hnd Hperm.
    induction catalog as [| k cl IH]; simpl; constructor; [| exact IH].
    rewrite get_school_boxes_table with (rows := rows) by exact Hdf.
    reflexivity.
  - rewrite (Permutation_length Hperm). clear.
    induction (map per catalog) as [| o os IH]; simpl; [reflexivity|].
    now rewrite length_app, IH.
Qed.

End SchoolBoxProperties.

Lemma index_of_NoDup (l : list Z) (i : nat) (x : Z) :
  NoDup l -> nth_error l i = Some x -> index_of x l = Some i.
Proof.
  revert i. induction l as [| y l IH]; intros i Hnd Hi.
  - destruct i; discriminate.
  - inversion Hnd as [| ? ? Hy Hnd']; subst. destruct i as [| i]; simpl in *.
    + injection Hi as ->. now rewrite Z.eqb_refl.
    + destruct (Z.eqb_spec x y) as [-> | Hne].
      * exfalso. apply Hy. eapply nth_error_In, Hi.
      * now rewrite (IH i Hnd' Hi).
Qed.

Lemma sel_labels_all (coord : list Z) :
  NoDup coord -> sel_labels coord coord = Ok (seq 0 (length coord)).
Proof.
  intros Hnd. unfold sel_labels.
  rewrite (proj2 (is_unique_NoDup coord) Hnd).
  assert (Hgen : forall labels start,
    (forall j x, nth_error labels j = Some x ->
                 index_of x coord = Some (start + j)%nat) ->
    get_indexer coord labels = Ok (seq start (length labels))).
  { induction labels as [| x rest IH]; intros start Hpos; [reflexivity|].
    simpl. rewrite (Hpos 0%nat x eq_refl), Nat.add_0_r.
    rewrite (IH (S start)); [reflexivity|].
    intros j y Hj. rewrite (Hpos (S j) y Hj). f_equal. lia. }
  apply Hgen. intros j x Hj. now apply index_of_NoDup.
Qed.

Section WholeVolume.

Variable V : Type.
Implicit Types (c : Cruise V).

(** X23: on a survey with annotations, [get_annotation_slice] with an
    explicit selection succeeds, whatever the window, exactly in these
    cases: for an int when it is a label of the category axis; for a
    list when the axis repeats no label and every member is a label of
    the axis.  The sentinel -1 is accepted like any other label of the
    axis. *)
Theorem get_annotation_slice_succeeds_iff c (a : Dataset V) sp ep sr er :
  _annotations c = Some a ->
  (forall k, is_ok (get_annotation_slice c sp ep sr er (SelInt k)) = true
             <-> In k (coord a))
  /\ (forall l, is_ok (get_annotation_slice c sp ep sr er (SelList l)) = true
                <-> NoDup (coord a) /\ forall k, In k l -> In k (coord a))
  /\ (In (-1) (coord a) ->
      is_ok (get_annotation_slice c sp ep sr er (SelInt (-1))) = true).
Proof.
  intros Ha.
  assert (Hint : forall k,
    is_ok (get_annotation_slice c sp ep sr er (SelInt k)) = true
    <-> In k (coord a)).
  { intros k. rewrite <- sel_label_is_ok.
    unfold get_annotation_slice, sel_isel, read_block. rewrite Ha.
    cbn [bind].
    destruct (sel_label (coord a) k) as [[i | js] |]; reflexivity. }
  split; [exact Hint|]. split.
  - intros l. rewrite <- sel_labels_is_ok.
    unfold get_annotation_slice, sel_isel, read_block. rewrite Ha.
    cbn [bind]. destruct (sel_labels (coord a) l); reflexivity.
  - intros Hin. now apply Hint.
Qed.

(** X24: with every argument left to None, on a survey whose frequency
    labels are pairwise distinct, [get_sv_slice] returns the whole
    backscatter volume: an array of shape
    (len(frequencies), num_pings, num_ranges) whose entry (i, j, k) is
    the value stored at frequency i, ping j and range k.  On a survey
    that repeats a frequency label the call raises
    [InvalidIndexError]. *)
Theorem get_sv_slice_whole_volume c :
  (NoDup (frequencies c) ->
   exists arr,
     get_sv_slice c None None None None SelNone = Ok (DA3 arr)
     /\ has_shape arr (length (frequencies c)) (Z.to_nat (num_pings c))
          (Z.to_nat (num_ranges c))
     /\ (forall i j k : nat,
           (i < length (frequencies c))%nat ->
           Z.of_nat j < num_pings c -> Z.of_nat k < num_ranges c ->
           exists slab row,
             nth_error arr i = Some slab /\ nth_error slab j = Some row
             /\ nth_error row k = Some (values (_data c) i j k)))
  /\ (~ NoDup (frequencies c) ->
      get_sv_slice c None None None None SelNone = Raise InvalidIndexError).
Proof.
  assert (Hpings : slice_indices None None (sizes_ping_time (_data c))
                   = seq 0 (sizes_ping_time (_data c))).
  { unfold slice_indices, slice_bound. f_equal; lia. }
  assert (Hranges : slice_indices (Some 0) (Some (num_ranges c + 1))
                      (sizes_range (_data c))
                    = seq 0 (sizes_range (_data c))).
  { unfold num_ranges. apply slice_indices_past_end. lia. }
  unfold get_sv_slice, sel_isel, read_block. cbn [or_default].
  unfold frequencies. split.
  - intros Hnd. rewrite (sel_labels_all Hnd), Hpings, Hranges. cbn [bind].
    eexists. split; [reflexivity|]. split.
    + unfold num_pings, num_ranges. rewrite !Nat2Z.id.
      replace (length (coord (_data c)))
        with (length (seq 0 (length (coord (_data c))))) at 2
        by apply length_seq.
      replace (sizes_ping_time (_data c))
        with (length (seq 0 (sizes_ping_time (_data c)))) at 2
        by apply length_seq.
      replace (sizes_range (_data c))
        with (length (seq 0 (sizes_range (_data c)))) at 2
        by apply length_seq.
      apply isel_shape.
    + intros i j k Hi Hj Hk. unfold num_pings in Hj. unfold num_ranges in Hk.
      unfold isel. do 2 eexists. split; [| split].
      * rewrite nth_error_map, nth_error_seq.
        destruct (Nat.ltb_spec i (length (coord (_data c)))); [| lia].
        reflexivity.
      * rewrite nth_error_map, nth_error_seq.
        destruct (Nat.ltb_spec j (sizes_ping_time (_data c))); [| lia].
        reflexivity.
      * rewrite nth_error_map, nth_error_seq.
        destruct (Nat.ltb_spec k (sizes_range (_data c))); [| lia].
        reflexivity.
  - intros Hnd. now rewrite sel_labels_repeated.
Qed.

End WholeVolume.

(** ** The further properties on the example survey *)

Lemma init_succeeds_witness :
  zarr_on_disk ex_fs ex_config "sv.zarr" = Some ex_data
  /\ is_some (zarr_on_disk ex_fs ex_config "labels.zarr") = true
  /\ is_some (csv_on_disk ex_fs ex_config "boxes.csv") = true
  /\ ex_init ex_config []
     = (Ok ex_cruise, [ex_warning]).
Proof.
  split; [reflexivity|]. split; [reflexivity|]. split; [reflexivity|].
  exact (@init_succeeds Z "sv.zarr" "labels.zarr" "bottom.zarr" "boxes.csv"
           ex_fs ex_config [] ex_data eq_refl (fun _ => eq_refl)
           ltac:(intros H; discriminate H) (fun _ => eq_refl)).
Defined.

Lemma init_raises_first_missing_witness :
  first_missing_required "sv.zarr" "labels.zarr" "bottom.zarr" "boxes.csv"
    ex_fs_empty ex_config = Some "sv.zarr"%string
  /\ zarr_on_disk ex_fs_empty ex_config "sv.zarr" = None
  /\ __init__ "sv.zarr" "labels.zarr" "bottom.zarr" "boxes.csv" ex_fs_empty
       ex_config []
     = (Raise (FileNotFoundError
                 "Required data for cruise `S2019847` not found at `/data/2019/S2019847/ACOUSTIC/GRIDDED/S2019847_sv.zarr`"),
        []).
Proof.
  split; [reflexivity|]. split; [reflexivity|].
  destruct (@init_raises_first_missing Z "sv.zarr" "labels.zarr"
              "bottom.zarr" "boxes.csv" ex_fs_empty ex_config []
              "sv.zarr"%string eq_refl) as (issued & Heq & Hdata).
  destruct (Hdata eq_refl) as [_ ->]. exact Heq.
Defined.

Lemma init_availability_witness :
  ex_init ex_config [] = (Ok ex_cruise, [ex_warning])
  /\ require_school_boxes ex_config = true
  /\ school_boxes_available ex_cruise = true
  /\ bottom_available ex_cruise = false.
Proof.
  split; [reflexivity|]. split; [reflexivity|].
  destruct (@init_availability Z "sv.zarr" "labels.zarr" "bottom.zarr"
              "boxes.csv" ex_fs ex_config [] ex_cruise [ex_warning] eq_refl)
    as (_ & _ & _ & Hbot & _ & _ & _ & Hbox).
  split; [exact (Hbox eq_refl) | exact Hbot].
Defined.

Lemma init_flags_only_raise_witness :
  ex_init ex_config [] = (Ok ex_cruise, [ex_warning])
  /\ ex_init (mkCruiseConfig "/data/2019/S2019847" false false false) []
     = (Ok ex_cruise, [ex_warning]).
Proof.
  split; [reflexivity|].
  exact (@init_flags_only_raise Z "sv.zarr" "labels.zarr" "bottom.zarr"
           "boxes.csv" ex_fs ex_config [] ex_cruise [ex_warning] eq_refl).
Defined.

Lemma init_required_then_queries_succeed_witness :
  ex_init ex_config [] = (Ok ex_cruise, [ex_warning])
  /\ require_school_boxes ex_config = true
  /\ require_annotations ex_config = true
  /\ is_ok (get_school_boxes ex_cruise (Some (-5)) None None (Some 7)
              (SelList [99])) = true
  /\ is_ok (get_school_boxes ex_cruise None (Some 3) None None SelNone)
     = true.
Proof.
  split; [reflexivity|]. split; [reflexivity|]. split; [reflexivity|].
  destruct (@init_required_then_queries_succeed Z "sv.zarr" "labels.zarr"
              "bottom.zarr" "boxes.csv" ex_fs ex_config [] ex_cruise
              [ex_warning] eq_refl eq_refl) as [Hexplicit Hdefault].
  split.
  - exact (proj2 (Hexplicit (Some (-5)) None None (Some 7) 0 [99])).
  - exact (proj2 (Hdefault eq_refl) None (Some 3) None None).
Defined.

Lemma read_name_trailing_separator_witness :
  path ex_config_trailing = ("/data/2019/S2019847" ++ "/")%string
  /\ _read_name ex_config_trailing = EmptyString
  /\ gridded_filepath ex_config_trailing (_read_name ex_config_trailing)
       "sv.zarr"
     = "/data/2019/S2019847/ACOUSTIC/GRIDDED/_sv.zarr"%string.
Proof.
  split; [reflexivity|].
  exact (@read_name_trailing_separator ex_config_trailing
           "/data/2019/S2019847" "sv.zarr" eq_refl).
Defined.

Lemma gridded_filepath_layout_witness :
  path ex_config = ("/data/2019" ++ "/" ++ "S2019847")%string
  /\ _read_name ex_config = "S2019847"%string
  /\ gridded_filepath ex_config (_read_name ex_config) "sv.zarr"
     = "/data/2019/S2019847/ACOUSTIC/GRIDDED/S2019847_sv.zarr"%string.
Proof.
  split; [reflexivity|].
  apply (@gridded_filepath_layout ex_config "/data/2019" "S2019847"
           "sv.zarr" eq_refl).
  - discriminate.
  - apply rfind_sep_none_get. reflexivity.
Defined.

Lemma get_sv_slice_succeeds_iff_witness :
  get_sv_slice ex_cruise (Some 1) (Some 3) None None (SelList [18000; 3])
  = Raise (KeyError 3)
  /\ ~ In 3 (frequencies ex_cruise)
  /\ get_sv_slice ex_cruise_repeated (Some 1) (Some 3) None None SelNone
     = Raise InvalidIndexError
  /\ ~ NoDup (frequencies ex_cruise_repeated).
Proof.
  split; [reflexivity|].
  destruct (proj2 (proj2 (proj2
              (@get_sv_slice_succeeds_iff Z ex_cruise (Some 1) (Some 3)
                 None None)))
              (SelList [18000; 3]) (KeyError 3) eq_refl)
    as [(Hinv & _) | (k & Hk & Hnk & _)]; [discriminate Hinv|].
  injection Hk as <-. split; [exact Hnk|].
  split; [reflexivity|].
  destruct (proj2 (proj2 (proj2
              (@get_sv_slice_succeeds_iff Z ex_cruise_repeated (Some 1)
                 (Some 3) None None)))
              SelNone InvalidIndexError eq_refl)
    as [(_ & Hnd & _) | (k & Hk & _)]; [exact Hnd | discriminate Hk].
Defined.

Lemma get_sv_slice_shape_witness :
  NoDup (frequencies ex_cruise)
  /\ (forall f, In f [38000] -> In f (frequencies ex_cruise))
  /\ 0 <= 1 <= 3 /\ 3 <= num_pings ex_cruise
  /\ 0 <= 0 <= 4 /\ 4 <= num_ranges ex_cruise
  /\ exists a,
       get_sv_slice ex_cruise (Some 1) (Some 3) (Some 0) (Some 4)
         (SelList [38000]) = Ok (DA3 a)
       /\ has_shape a 1 2 4.
Proof.
  assert (Hnd : NoDup (frequencies ex_cruise))
    by (apply is_unique_NoDup; reflexivity).
  assert (Hvalid : forall f, In f [38000] -> In f (frequencies ex_cruise)).
  { intros f [<- | []]. right. now left. }
  assert (Hpn : 3 <= num_pings ex_cruise) by (vm_compute; discriminate).
  assert (Hrn : 4 <= num_ranges ex_cruise) by (vm_compute; discriminate).
  split; [exact Hnd|].
  split; [exact Hvalid|]. split; [lia|]. split; [exact Hpn|].
  split; [lia|]. split; [exact Hrn|].
  exact (@get_sv_slice_shape Z ex_cruise 1 3 0 4 [38000] Hnd Hvalid
           ltac:(lia) Hpn ltac:(lia) Hrn).
Defined.

Lemma get_sv_slice_negative_start_witness :
  0 < 2 <= num_pings ex_cruise
  /\ get_sv_slice ex_cruise (Some (-2)) None None None (SelInt 18000)
     = get_sv_slice ex_cruise (Some 4) (Some 6) None None (SelInt 18000)
  /\ get_sv_slice ex_cruise (Some (-2)) None None None (SelInt 18000)
     = Ok (DA2 [[40; 41; 42; 43]; [50; 51; 52; 53]]).
Proof.
  assert (Hk : 0 < 2 <= num_pings ex_cruise)
    by (split; [lia | vm_compute; discriminate]).
  split; [exact Hk|].
  split; [| reflexivity].
  exact (proj1 (@get_sv_slice_negative_start Z ex_cruise 2 None None None
                  (SelInt 18000)) Hk).
Defined.

Lemma get_sv_slice_end_clamped_witness :
  num_pings ex_cruise <= 10
  /\ get_sv_slice ex_cruise (Some 4) (Some 10) None None (SelInt 18000)
     = get_sv_slice ex_cruise (Some 4) None None None (SelInt 18000).
Proof.
  assert (He : num_pings ex_cruise <= 10) by (vm_compute; discriminate).
  split; [exact He|].
  exact (proj1 (@get_sv_slice_end_clamped Z ex_cruise (Some 4) None 10 None
                  None (SelInt 18000)) He).
Defined.

Lemma get_sv_slice_content_witness :
  nth_error (frequencies ex_cruise) 1 = Some 38000
  /\ (forall j, nth_error (frequencies ex_cruise) j = Some 38000 ->
                j = 1%nat)
  /\ exists a,
       get_sv_slice ex_cruise (Some 1) (Some 3) (Some 0) (Some 4)
         (SelInt 38000) = Ok (DA2 a)
       /\ exists row, nth_error a 1 = Some row
                      /\ nth_error row 3 = Some 123.
Proof.
  assert (Honly : forall j, nth_error (frequencies ex_cruise) j = Some 38000
                            -> j = 1%nat).
  { intros [| [| [| j]]] Hj; try reflexivity; simpl in Hj; discriminate. }
  split; [reflexivity|]. split; [exact Honly|].
  destruct (@get_sv_slice_content Z ex_cruise 1 3 0 4 38000 1 eq_refl Honly
              ltac:(lia) ltac:(vm_compute; discriminate) ltac:(lia)
              ltac:(vm_compute; discriminate)) as (a & Ha & _ & Hcell).
  exists a. split; [exact Ha|].
  destruct (Hcell 1%nat 3%nat ltac:(lia) ltac:(lia))
    as (row & Hrow & _ & Hval).
  exists row. split; [exact Hrow | exact Hval].
Defined.

Lemma get_sv_slice_int_vs_singleton_witness :
  NoDup (frequencies ex_cruise)
  /\ get_sv_slice ex_cruise (Some 4) None (Some 2) None (SelInt 18000)
     = Ok (DA2 [[42; 43]; [52; 53]])
  /\ get_sv_slice ex_cruise (Some 4) None (Some 2) None (SelList [18000])
     = Ok (DA3 [[[42; 43]; [52; 53]]])
  /\ get_sv_slice ex_cruise_repeated (Some 0) (Some 1) None (Some 2)
       (SelInt 18000) = Ok (DA3 [[[0; 1]]; [[100; 101]]])
  /\ get_sv_slice ex_cruise_repeated (Some 0) (Some 1) None (Some 2)
       (SelList [18000]) = Raise InvalidIndexError.
Proof.
  assert (Hnd : NoDup (frequencies ex_cruise))
    by (apply is_unique_NoDup; reflexivity).
  split; [exact Hnd|]. split; [reflexivity|]. split.
  - apply (proj1 (proj1 (@get_sv_slice_int_vs_singleton Z ex_cruise (Some 4)
                           None (Some 2) None 18000) Hnd)).
    reflexivity.
  - split; [reflexivity|].
    exact (proj2 (proj1 (proj2 (proj2
             (@get_sv_slice_int_vs_singleton Z ex_cruise_repeated (Some 0)
                (Some 1) None (Some 2) 18000)))
             [[[0; 1]]; [[100; 101]]] eq_refl)).
Defined.

Lemma get_sv_slice_adjacent_pings_witness :
  0 <= 0 <= 2 /\ 2 <= 9
  /\ get_sv_slice ex_cruise (Some 0) (Some 9) (Some 3) None (SelInt 18000)
     = Ok (DA2 ([[3]; [13]] ++ [[23]; [33]; [43]; [53]])).
Proof.
  split; [lia|]. split; [lia|].
  exact (@get_sv_slice_adjacent_pings Z ex_cruise 0 2 9 (Some 3) None 18000
           [[3]; [13]] [[23]; [33]; [43]; [53]] ltac:(lia) ltac:(lia)
           eq_refl eq_refl).
Defined.

Lemma get_annotation_slice_unavailable_witness :
  annotations_available ex_cruise_no_annotations = false
  /\ get_annotation_slice ex_cruise_no_annotations None None None None
       (SelList [1])
     = Raise (AttributeError "sel").
Proof.
  split; [reflexivity|].
  apply (@get_annotation_slice_unavailable Z ex_cruise_no_annotations None
           None None None eq_refl).
Defined.

Lemma get_annotation_slice_default_witness :
  _annotations ex_cruise = Some ex_annotations
  /\ NoDup (coord ex_annotations)
  /\ (exists cl arr,
        categories ex_cruise = Ok cl
        /\ get_annotation_slice ex_cruise (Some 0) (Some 1) None None SelNone
           = Ok (DA3 arr)
        /\ length arr = length cl)
  /\ _annotations ex_cruise_repeated_categories
     = Some ex_annotations_repeated
  /\ categories ex_cruise_repeated_categories = Ok [1; 1; 27]
  /\ get_annotation_slice ex_cruise_repeated_categories (Some 0) (Some 1)
       None None SelNone = Raise InvalidIndexError.
Proof.
  assert (Hnd : NoDup (coord ex_annotations))
    by (apply is_unique_NoDup; reflexivity).
  split; [reflexivity|]. split; [exact Hnd|]. split.
  - destruct (proj1 (@get_annotation_slice_default Z ex_cruise ex_annotations
                       (Some 0) (Some 1) None None eq_refl) Hnd)
      as (cl & arr & Hcl & Harr & Hlen & _).
    exists cl, arr. auto.
  - split; [reflexivity|]. split; [reflexivity|].
    apply (proj2 (@get_annotation_slice_default Z
                    ex_cruise_repeated_categories ex_annotations_repeated
                    (Some 0) (Some 1) None None eq_refl)).
    intros Hnd'. apply is_unique_NoDup in Hnd'. discriminate Hnd'.
Defined.

Lemma get_annotation_slice_succeeds_iff_witness :
  _annotations ex_cruise = Some ex_annotations
  /\ In (-1) (coord ex_annotations)
  /\ is_ok (get_annotation_slice ex_cruise None None None None
              (SelInt (-1))) = true
  /\ NoDup (coord ex_annotations)
  /\ is_ok (get_annotation_slice ex_cruise None None None None
              (SelList [1; -1])) = true.
Proof.
  split; [reflexivity|].
  assert (Hin : In (-1) (coord ex_annotations)) by (right; now left).
  assert (Hnd : NoDup (coord ex_annotations))
    by (apply is_unique_NoDup; reflexivity).
  split; [exact Hin|].
  destruct (@get_annotation_slice_succeeds_iff Z ex_cruise ex_annotations
              None None None None eq_refl) as (_ & Hlist & Hsentinel).
  split; [exact (Hsentinel Hin)|]. split; [exact Hnd|].
  apply Hlist. split; [exact Hnd|].
  intros k [<- | [<- | []]]; simpl; auto.
Defined.

Lemma get_sv_slice_whole_volume_witness :
  NoDup (frequencies ex_cruise)
  /\ exists arr,
       get_sv_slice ex_cruise None None None None SelNone = Ok (DA3 arr)
       /\ exists slab row,
            nth_error arr 1 = Some slab /\ nth_error slab 5 = Some row
            /\ nth_error row 3 = Some 153.
Proof.
  assert (Hnd : NoDup (frequencies ex_cruise))
    by (apply is_unique_NoDup; reflexivity).
  split; [exact Hnd|].
  destruct (proj1 (@get_sv_slice_whole_volume Z ex_cruise) Hnd)
    as (arr & Harr & _ & Hcell).
  exists arr. split; [exact Harr|].
  exact (Hcell 1%nat 5%nat 3%nat ltac:(simpl; lia)
           ltac:(vm_compute; reflexivity) ltac:(vm_compute; reflexivity)).
Defined.

Lemma get_school_boxes_empty_selection_witness :
  _school_box_df ex_cruise = Some ex_rows
  /\ get_school_boxes ex_cruise None None None None (SelList []) = Ok []
  /\ get_school_boxes ex_cruise None None None None SelNone
     <> Ok [].
Proof.
  split; [reflexivity|]. split; [| vm_compute; discriminate].
  exact (@get_school_boxes_empty_selection Z ex_cruise ex_rows None None
           None None eq_refl).
Defined.

Lemma get_school_boxes_default_excludes_sentinel_witness :
  get_school_boxes ex_cruise None None None None SelNone
  = Ok [mkRow 2 10 5 30 1; mkRow 12 15 40 60 27; mkRow 14 18 0 20 1;
        mkRow 30 40 10 50 1]
  /\ category (mkRow 12 15 40 60 27) <> -1.
Proof.
  split; [reflexivity|].
  destruct (@get_school_boxes_default_excludes_sentinel Z ex_cruise None
              None None None _ eq_refl) as (a & _ & Hrows).
  apply (Hrows (mkRow 12 15 40 60 27)). right. now left.
Defined.

Lemma get_school_boxes_window_monotone_witness :
  0 <= 10 /\ 20 <= 30 /\ 0 <= 20 /\ 100 <= 200
  /\ get_school_boxes ex_cruise (Some 10) (Some 20) (Some 20) (Some 100)
       SelNone
     = Ok [mkRow 2 10 5 30 1; mkRow 12 15 40 60 27; mkRow 14 18 0 20 1]
  /\ exists out',
       get_school_boxes ex_cruise (Some 0) (Some 30) (Some 0) (Some 200)
         SelNone = Ok out'
       /\ In (mkRow 12 15 40 60 27) out'.
Proof.
  split; [lia|]. split; [lia|]. split; [lia|]. split; [lia|].
  split; [reflexivity|].
  destruct (@get_school_boxes_window_monotone Z ex_cruise 10 20 20 100
              0 30 0 200 SelNone _ ltac:(lia) ltac:(lia) ltac:(lia)
              ltac:(lia) eq_refl) as [(out' & Hout' & Hincl) _].
  exists out'. split; [exact Hout'|]. apply Hincl. right. now left.
Defined.

Lemma get_school_boxes_adjacent_windows_witness :
  0 <= 12 /\ 12 <= 20
  /\ get_school_boxes ex_cruise (Some 0) (Some 20) None None SelNone
     = Ok [mkRow 2 10 5 30 1; mkRow 12 15 40 60 27; mkRow 14 18 0 20 1]
  /\ exists out_ab out_be,
       get_school_boxes ex_cruise (Some 0) (Some 12) None None SelNone
       = Ok out_ab
       /\ get_school_boxes ex_cruise (Some 12) (Some 20) None None SelNone
          = Ok out_be
       /\ (In (mkRow 2 10 5 30 1) out_ab \/ In (mkRow 2 10 5 30 1) out_be).
Proof.
  split; [lia|]. split; [lia|]. split; [reflexivity|].
  destruct (@get_school_boxes_adjacent_windows Z ex_cruise 0 12 20 None None
              SelNone _ ltac:(lia) ltac:(lia) eq_refl)
    as (out_ab & out_be & Hab & Hbe & _ & _ & Hcover & _).
  exists out_ab, out_be. split; [exact Hab|]. split; [exact Hbe|].
  apply Hcover; [now left | simpl; lia].
Defined.

Lemma get_school_boxes_by_category_witness :
  _school_box_df ex_cruise = Some ex_rows
  /\ _annotations ex_cruise = Some ex_annotations
  /\ NoDup (coord ex_annotations)
  /\ exists out_all outs,
       get_school_boxes ex_cruise None None None None SelNone = Ok out_all
       /\ Forall2 (fun k out_k =>
                     get_school_boxes ex_cruise None None None None
                       (SelInt k) = Ok out_k) [1; 27] outs
       /\ length out_all = list_sum (map (@length Row) outs).
Proof.
  assert (Hnd : NoDup (coord ex_annotations)).
  { repeat constructor; simpl; intuition discriminate. }
  split; [reflexivity|]. split; [reflexivity|]. split; [exact Hnd|].
  destruct (@get_school_boxes_by_category Z ex_cruise ex_annotations ex_rows
              None None None None eq_refl eq_refl Hnd)
    as (catalog & out_all & outs & Hcat & Hall & Hper & _ & Hlen).
  exists out_all, outs. split; [exact Hall|]. split; [| exact Hlen].
  assert (Hc : catalog = [1; 27]).
  { assert (Heq : Ok catalog = Ok [1; 27])
      by (rewrite <- Hcat; reflexivity).
    now injection Heq. }
  now rewrite <- Hc.
Defined.
